(** * Elevator Docs API: upload, search and retrieval of documents

    A shallow embedding of [main.py] and [schemas.py].  Python values are
    modelled as the code uses them: [str] as [string] (code points below
    256), [bytes] as [list byte], a [dict] as a [gmap] from field names to
    BSON values, the file system as a [gmap] from paths to blobs, and an
    exception as a constructor of [outcome]. *)

From Stdlib Require Import ZArith NArith Ascii String List Lia Bool.
From stdpp Require Import gmap strings list pretty.

Local Open Scope string_scope.

Abbreviation byte := Byte.byte.

(** ** Python strings *)

Module PyStr.

(** [str.isspace] on one code point, as [str.strip()] uses it: the ASCII
    table of CPython (tab to carriage return, the four separators
    0x1c-0x1f, space) and the two Latin-1 spaces 0x85 and 0xa0. *)
Definition isspace (c : ascii) : bool :=
  let n := N_of_ascii c in
  ((9 <=? n) && (n <=? 13) || (28 <=? n) && (n <=? 32)
   || (n =? 133) || (n =? 160))%N.

(** [sep in s] for a one-character [sep]. *)
Fixpoint contains (sep : ascii) (s : string) : bool :=
  match s with
  | EmptyString => false
  | String c s' => Ascii.eqb c sep || contains sep s'
  end.

(** [s.split(sep)] for a one-character [sep]: never the empty list. *)
Fixpoint split (sep : ascii) (s : string) : list string :=
  match s with
  | EmptyString => [EmptyString]
  | String c s' =>
      if Ascii.eqb c sep then EmptyString :: split sep s'
      else match split sep s' with
           | [] => [String c EmptyString]
           | h :: t => String c h :: t
           end
  end.

(** [xs[-1]] on a list that [split] returned. *)
Definition last_piece (xs : list string) : string := List.last xs EmptyString.

Fixpoint lstrip (s : string) : string :=
  match s with
  | EmptyString => EmptyString
  | String c s' => if isspace c then lstrip s' else s
  end.

Fixpoint rstrip (s : string) : string :=
  match s with
  | EmptyString => EmptyString
  | String c s' =>
      match rstrip s' with
      | EmptyString => if isspace c then EmptyString else String c EmptyString
      | r => String c r
      end
  end.

(** [s.strip()] *)
Definition strip (s : string) : string := rstrip (lstrip s).

(** Truthiness of an [Optional[str]]: [None] and the empty string are falsy. *)
Definition truthy (o : option string) : bool :=
  match o with
  | Some (String _ _) => true
  | _ => false
  end.

(** [sep.join(xs)] *)
Fixpoint join (sep : string) (xs : list string) : string :=
  match xs with
  | [] => EmptyString
  | [x] => x
  | x :: rest => x +:+ sep +:+ join sep rest
  end.

(** Every character of [s] satisfies [p]. *)
Fixpoint all (p : ascii -> bool) (s : string) : bool :=
  match s with
  | EmptyString => true
  | String c s' => p c && all p s'
  end.

(** Number of occurrences of [c] in [s]. *)
Fixpoint count (c : ascii) (s : string) : nat :=
  match s with
  | EmptyString => 0
  | String d s' => (if Ascii.eqb d c then 1 else 0) + count c s'
  end.

(** [c.lower()] on one code point below 256: the letters A-Z and the
    Latin-1 capitals 0xc0-0xde, the multiplication sign apart. *)
Definition lower_char (c : ascii) : ascii :=
  let n := N_of_ascii c in
  if ((65 <=? n) && (n <=? 90) || (192 <=? n) && (n <=? 222) && negb (n =? 215))%N
  then ascii_of_N (n + 32) else c.

(** [s.lower()] *)
Fixpoint lower (s : string) : string :=
  match s with
  | EmptyString => EmptyString
  | String c s' => String (lower_char c) (lower s')
  end.

(** [s.startswith(p)] *)
Fixpoint startswith (p s : string) : bool :=
  match p, s with
  | EmptyString, _ => true
  | String a p', String b s' => Ascii.eqb a b && startswith p' s'
  | String _ _, EmptyString => false
  end.

(** [sub in s] for a text [sub]. *)
Fixpoint has (sub s : string) : bool :=
  startswith sub s ||
  match s with
  | EmptyString => false
  | String _ s' => has sub s'
  end.

End PyStr.

(** ** BSON object identifiers *)

Module Bson.

(** An [ObjectId] wraps its binary form (twelve bytes when generated). *)
Record ObjectId := mkObjectId { binary : list byte }.

Definition hexdigit (n : N) : ascii :=
  match String.get (N.to_nat n) "0123456789abcdef" with
  | Some c => c
  | None => "0"%char
  end.

Definition hex_of_byte (b : byte) : string :=
  let n := Byte.to_N b in
  String (hexdigit (n / 16)) (String (hexdigit (n mod 16)) EmptyString).

(** [str(oid)]: two lower-case hexadecimal digits per byte. *)
Definition str (o : ObjectId) : string :=
  fold_right (fun b acc => hex_of_byte b +:+ acc) EmptyString (binary o).

Definition hexval (c : ascii) : option N :=
  let n := N_of_ascii c in
  if ((48 <=? n) && (n <=? 57))%N then Some (n - 48)%N
  else if ((97 <=? n) && (n <=? 102))%N then Some (n - 87)%N
  else if ((65 <=? n) && (n <=? 70))%N then Some (n - 55)%N
  else None.

(** The C-locale [isspace] that [bytes.fromhex] skips between bytes. *)
Definition c_isspace (c : ascii) : bool :=
  let n := N_of_ascii c in
  ((9 <=? n) && (n <=? 13) || (n =? 32))%N.

Definition byte_of_nibbles (h l : N) : byte :=
  match Byte.of_N (16 * h + l) with
  | Some b => b
  | None => Byte.x00
  end.

(** [bytes.fromhex(s)]: pairs of hexadecimal digits, white space allowed
    between pairs; [None] stands for [ValueError]. *)
Fixpoint fromhex (s : string) : option (list byte) :=
  match s with
  | EmptyString => Some []
  | String c s' =>
      if c_isspace c then fromhex s'
      else match s' with
           | EmptyString => None
           | String d s'' =>
               match hexval c, hexval d with
               | Some h, Some l =>
                   match fromhex s'' with
                   | Some bs => Some (byte_of_nibbles h l :: bs)
                   | None => None
                   end
               | _, _ => None
               end
           end
  end.

(** [ObjectId(s)] on a [str]: [None] stands for [InvalidId]. *)
Definition parse (s : string) : option ObjectId :=
  if Nat.eqb (String.length s) 24 then
    match fromhex s with
    | Some bs => Some (mkObjectId bs)
    | None => None
    end
  else None.

(** The BSON values that occur in a stored document. *)
Inductive value :=
| BNull
| BStr (s : string)
| BInt (n : Z)
| BObjectId (o : ObjectId)
| BArray (xs : list string).

End Bson.

Export Bson(ObjectId, mkObjectId, binary, value, BNull, BStr, BInt, BObjectId, BArray).

(** ** Upload: tag parsing and stored name (main.py, upload_document) *)

(** [[t.strip() for t in tags.split(',')] if tags else None] *)
Definition parse_tags (tags : option string) : option (list string) :=
  match tags with
  | Some raw =>
      if PyStr.truthy tags
      then Some (map PyStr.strip (PyStr.split "," raw))
      else None
  | None => None
  end.

(** [f"{ObjectId()}.{file.filename.split('.')[-1]}" if "." in file.filename
    else str(ObjectId())]; [oid] is the identifier that [ObjectId()]
    generates. *)
Definition stored_name (oid : ObjectId) (filename : string) : string :=
  if PyStr.contains "." filename
  then Bson.str oid +:+ "." +:+ PyStr.last_piece (PyStr.split "." filename)
  else Bson.str oid.

(** ** Python [str()] and truthiness of BSON values *)

Module Py.

Definition hex2 (n : N) : string :=
  String (Bson.hexdigit (n / 16)) (String (Bson.hexdigit (n mod 16)) EmptyString).

(** Characters that [repr] prints as they are: printable ASCII and the
    printable part of Latin-1. *)
Definition isprintable (c : ascii) : bool :=
  let n := N_of_ascii c in
  ((32 <=? n) && (n <? 127) || (161 <=? n) && negb (n =? 173))%N.

(** The double quote, code point 34. *)
Definition dquote : ascii := ascii_of_N 34.

(** The backslash, code point 92. *)
Definition backslash : ascii := ascii_of_N 92.

Definition repr_char (quote : ascii) (c : ascii) : string :=
  if Ascii.eqb c quote || Ascii.eqb c backslash
  then String backslash (String c EmptyString)
  else if (N_of_ascii c =? 9)%N then "\t"
  else if (N_of_ascii c =? 10)%N then "\n"
  else if (N_of_ascii c =? 13)%N then "\r"
  else if isprintable c then String c EmptyString
  else "\x" +:+ hex2 (N_of_ascii c).

Fixpoint repr_body (quote : ascii) (s : string) : string :=
  match s with
  | EmptyString => EmptyString
  | String c s' => repr_char quote c +:+ repr_body quote s'
  end.

(** [repr(s)] of a [str]: single quotes unless the text holds a single
    quote and no double quote. *)
Definition repr (s : string) : string :=
  let quote :=
    if PyStr.contains "'" s && negb (PyStr.contains dquote s)
    then dquote else "'"%char in
  String quote (repr_body quote s) +:+ String quote EmptyString.

(** [str(v)] *)
Definition str (v : value) : string :=
  match v with
  | BNull => "None"
  | BStr s => s
  | BInt n => pretty n
  | BObjectId o => Bson.str o
  | BArray xs => "[" +:+ PyStr.join ", " (map repr xs) +:+ "]"
  end.

(** [bool(v)] *)
Definition truthy (v : value) : bool :=
  match v with
  | BNull => false
  | BStr s => PyStr.truthy (Some s)
  | BInt n => negb (n =? 0)%Z
  | BObjectId _ => true
  | BArray xs => match xs with [] => false | _ => true end
  end.

(** [d.get(k)]: a missing key reads as [None], which is BSON null. *)
Definition get (d : gmap string value) (k : string) : value :=
  match d !! k with
  | Some v => v
  | None => BNull
  end.

(** [a or b] *)
Definition or (a b : value) : value := if truthy a then a else b.

End Py.

(** ** Outcomes of a request *)

(** Exceptions that no handler catches; the framework answers 500. *)
Inductive exn := OSError | PersistenceError | KeyError | TypeError | PydanticError.

Inductive outcome (A : Type) : Type :=
| Ok (a : A)
| HTTPException (status_code : nat) (detail : string)
| RequestValidationError (missing : list string)
| Raised (e : exn).

Arguments Ok {A} a.
Arguments HTTPException {A} status_code detail.
Arguments RequestValidationError {A} missing.
Arguments Raised {A} e.

Definition is_ok {A} (r : outcome A) : bool :=
  match r with
  | Ok _ => true
  | _ => false
  end.

(** The status line the client sees. *)
Definition status {A} (r : outcome A) : nat :=
  match r with
  | Ok _ => 200
  | HTTPException c _ => c
  | RequestValidationError _ => 422
  | Raised _ => 500
  end.

(** Handlers thread the world and stop at the first exception. *)
Definition M (W A : Type) : Type := W -> outcome A * W.

Definition ret {W A} (a : A) : M W A := fun w => (Ok a, w).

Definition raise {W A} (r : outcome A) : M W A := fun w => (r, w).

Definition bind {W A B} (m : M W A) (k : A -> M W B) : M W B :=
  fun w =>
    match m w with
    | (Ok a, w') => k a w'
    | (HTTPException c d, w') => (HTTPException c d, w')
    | (RequestValidationError ms, w') => (RequestValidationError ms, w')
    | (Raised x, w') => (Raised x, w')
    end.

Notation "x <- m ;; k" := (bind m (fun x => k))
  (at level 100, m at next level, right associativity).

(** ** schemas.py *)

Module Schemas.

Record Document := mkDocument {
  brand : string;
  title : string;
  description : option string;
  content_type : option string;
  size : option Z;
  filename : option string;
  original_name : option string;
  path : option string;
  tags : option (list string)
}.

(** The one constraint of the model: [size] has [ge=0]. *)
Definition validate (d : Document) : outcome Document :=
  match size d with
  | Some n => if (0 <=? n)%Z then Ok d else Raised PydanticError
  | None => Ok d
  end.

Definition dump_str (o : option string) : value :=
  match o with
  | Some s => BStr s
  | None => BNull
  end.

(** [data.model_dump()] *)
Definition model_dump (d : Document) : gmap string value :=
  <["brand" := BStr (brand d)]>
  (<["title" := BStr (title d)]>
  (<["description" := dump_str (description d)]>
  (<["content_type" := dump_str (content_type d)]>
  (<["size" := match size d with Some n => BInt n | None => BNull end]>
  (<["filename" := dump_str (filename d)]>
  (<["original_name" := dump_str (original_name d)]>
  (<["path" := dump_str (path d)]>
  (<["tags" := match tags d with Some xs => BArray xs | None => BNull end]>
   ∅)))))))).

End Schemas.

Export Schemas(Document, mkDocument).

(** ** The world a request runs in *)

(** [STORAGE_DIR] is read from the environment when the module loads;
    [fs] maps the path of each stored blob to its bytes; [documents] is
    the MongoDB collection "document" in insertion order. *)
Record world := mkWorld {
  STORAGE_DIR : string;
  fs : gmap string (list byte);
  documents : list (gmap string value)
}.

(** What the outside decides during one upload: the identifier that
    [ObjectId()] generates for the stored name, the one the store assigns
    to the record, and which of the fallible calls raise. *)
Record env := mkEnv {
  name_oid : ObjectId;
  record_oid : ObjectId;
  open_fails : bool;
  write_fails_at : option nat;
  insert_fails : bool
}.

(** [os.path.join(a, b)] on POSIX. *)
Definition os_path_join (a b : string) : string :=
  match b with
  | String "/" _ => b
  | _ =>
      match a with
      | EmptyString => b
      | _ => if String.eqb (PyStr.last_piece (PyStr.split "/" a)) EmptyString
             then a +:+ b else a +:+ "/" +:+ b
      end
  end.

(** ** The database module *)

(** Modelled from the spec: [create_document] of the missing [database]
    module, the repository's [insert(record) -> id]: it persists the fully
    constructed record under a fresh identifier and returns that
    identifier as a string; on a storage-layer failure it raises and
    inserts nothing. *)
Definition create_document (e : env) (data : Document) : M world string :=
  fun w =>
    if insert_fails e then (Raised PersistenceError, w)
    else (Ok (Bson.str (record_oid e)),
          mkWorld (STORAGE_DIR w) (fs w)
            (documents w ++ [<["_id" := BObjectId (record_oid e)]> (Schemas.model_dump data)])%list).

(** ** POST /api/documents *)

Module UploadFile.

(** The uploaded part: the client's file name and declared type, and the
    bytes still to be read. *)
Record t := mk {
  filename : string;
  content_type : option string;
  stream : list byte
}.

(** [await file.read(n)]: up to [n] bytes, and what remains. *)
Fixpoint read (n : N) (s : list byte) : list byte * list byte :=
  match s with
  | [] => ([], [])
  | b :: s' =>
      if (n =? 0)%N then ([], s)
      else let (chunk, rest) := read (N.pred n) s' in (b :: chunk, rest)
  end.

End UploadFile.

(** 1MB chunks *)
Definition CHUNK : N := 1024 * 1024.

(** The loop inside [with open(storage_path, "wb") as f]: read a chunk,
    stop when it is empty, write it.  [i] counts the writes done and
    [written] is what the file holds; the write numbered [fault] raises.
    The result is [None] when the fuel runs out. *)
Fixpoint copy_loop (fuel : nat) (fault : option nat) (i : nat)
    (stream written : list byte) : option (outcome unit * list byte) :=
  match fuel with
  | O => None
  | S fuel' =>
      match UploadFile.read CHUNK stream with
      | ([], _) => Some (Ok tt, written)
      | (chunk, rest) =>
          if bool_decide (fault = Some i) then Some (Raised OSError, written)
          else copy_loop fuel' fault (S i) rest (written ++ chunk)%list
      end
  end.

(** [open(storage_path, "wb")]: creates or truncates the file. *)
Definition open_wb (e : env) (p : string) : M world unit :=
  fun w =>
    if open_fails e then (Raised OSError, w)
    else (Ok tt, mkWorld (STORAGE_DIR w) (<[p := []]> (fs w)) (documents w)).

(** What the loop leaves in the file, and how it ended. *)
Definition flush (p : string) (res : outcome unit) (written : list byte) : M world unit :=
  fun w => (res, mkWorld (STORAGE_DIR w) (<[p := written]> (fs w)) (documents w)).

(** [os.path.getsize(p)] *)
Definition getsize (p : string) : M world Z :=
  fun w =>
    match fs w !! p with
    | Some blob => (Ok (Z.of_nat (length blob)), w)
    | None => (Raised OSError, w)
    end.

Record upload_response := mkUploaded { id : string; message : string }.

(** [upload_document] once its parameters are bound.  The [finally]
    clause only closes the upload, so an exception of the loop leaves
    through it unchanged. *)
Definition upload_document (e : env) (w : world)
    (brand title : string) (description tags : option string) (file : UploadFile.t)
  : option (outcome upload_response * world) :=
  let stored := stored_name (name_oid e) (UploadFile.filename file) in
  let storage_path := os_path_join (STORAGE_DIR w) stored in
  match copy_loop (S (length (UploadFile.stream file))) (write_fails_at e) 0
                  (UploadFile.stream file) [] with
  | None => None
  | Some (res, written) =>
      Some ((_ <- open_wb e storage_path ;;
             _ <- flush storage_path res written ;;
             size <- getsize storage_path ;;
             doc <- raise (Schemas.validate
                      (mkDocument brand title description
                         (UploadFile.content_type file) (Some size) (Some stored)
                         (Some (UploadFile.filename file)) (Some storage_path)
                         (parse_tags tags))) ;;
             inserted_id <- create_document e doc ;;
             ret (mkUploaded inserted_id "Uploaded")) w)
  end.

(** The write to storage fails: [open] raises, or the write that raises
    is reached, which takes more than that many full chunks of content. *)
Definition blob_write_fails (e : env) (file : UploadFile.t) : Prop :=
  open_fails e = true \/
  exists k, write_fails_at e = Some k /\
    (N.of_nat k * CHUNK < N.of_nat (length (UploadFile.stream file)))%N.

(** The multipart form as the client sent it. *)
Record upload_form := mkForm {
  form_brand : option string;
  form_title : option string;
  form_description : option string;
  form_tags : option string;
  form_file : option UploadFile.t
}.

(** FastAPI's binding of a form field reads an empty value as a missing
    one: a field declared [Form(...)] is then reported missing, and one
    declared [Form(None)] takes its default. *)
Definition form_value (v : option string) : option string :=
  if PyStr.truthy v then v else None.

(** A part is bound as an upload when it comes with a file name; one
    without a file name is no file, and the field declared [File(...)]
    is then refused like a missing one. *)
Definition form_upload (v : option UploadFile.t) : option UploadFile.t :=
  match v with
  | Some file =>
      match UploadFile.filename file with
      | EmptyString => None
      | String _ _ => Some file
      end
  | None => None
  end.

(** The fields declared [Form(...)] or [File(...)] that the request lacks,
    in the order of the signature. *)
Definition missing_fields (f : upload_form) : list string :=
  ((match form_value (form_brand f) with Some _ => [] | None => ["brand"] end) ++
   (match form_value (form_title f) with Some _ => [] | None => ["title"] end) ++
   (match form_upload (form_file f) with Some _ => [] | None => ["file"] end))%list.

(** The route: FastAPI binds the parameters of the signature and answers
    422, naming each missing required field, without calling the handler;
    [Form(None)] fields default to [None]. *)
Definition post_documents (e : env) (w : world) (f : upload_form)
  : option (outcome upload_response * world) :=
  match form_value (form_brand f), form_value (form_title f),
        form_upload (form_file f) with
  | Some brand, Some title, Some file =>
      upload_document e w brand title
        (form_value (form_description f)) (form_value (form_tags f)) file
  | _, _, _ => Some (RequestValidationError (missing_fields f), w)
  end.

(** ** Regular expressions of the store *)

Module Regex.

(** The fragment of the store's regular expressions that is spelled out
    here: a sequence of literal characters and dots. *)
Inductive atom := Lit (c : ascii) | Any.

(** Characters with a meaning of their own in a pattern. *)
Definition is_meta (c : ascii) : bool :=
  PyStr.contains c "\^$.|?*+()[]{}".

(** [None] when the pattern leaves the fragment. *)
Fixpoint compile (pat : string) : option (list atom) :=
  match pat with
  | EmptyString => Some []
  | String c pat' =>
      match compile pat' with
      | None => None
      | Some r =>
          if Ascii.eqb c "." then Some (Any :: r)
          else if is_meta c then None
          else Some (Lit c :: r)
      end
  end.

(** Case folding of the option [i] on code points below 256: the
    letters A-Z and the Latin-1 capitals 0xc0-0xde, the multiplication
    sign apart, fold to the letter 32 places on. *)
Definition lower (c : ascii) : ascii :=
  let n := N_of_ascii c in
  if ((65 <=? n) && (n <=? 90) || (192 <=? n) && (n <=? 222) && negb (n =? 215))%N
  then ascii_of_N (n + 32) else c.

Definition newline : ascii := ascii_of_N 10.

Definition atom_matches (caseless : bool) (a : atom) (c : ascii) : bool :=
  match a with
  | Lit x => if caseless then Ascii.eqb (lower x) (lower c) else Ascii.eqb x c
  | Any => negb (Ascii.eqb c newline)
  end.

(** The pattern matches a prefix of [s]. *)
Fixpoint match_here (caseless : bool) (r : list atom) (s : string) : bool :=
  match r, s with
  | [], _ => true
  | a :: r', String c s' => atom_matches caseless a c && match_here caseless r' s'
  | _ :: _, EmptyString => false
  end.

(** The pattern matches somewhere in [s] (patterns are not anchored). *)
Fixpoint search (caseless : bool) (r : list atom) (s : string) : bool :=
  match_here caseless r s ||
  match s with
  | EmptyString => false
  | String _ s' => search caseless r s'
  end.

(** The store's engine on the patterns that leave the fragment: for a
    pattern and its options, [None] when the store rejects the pattern,
    else the test whether the pattern matches somewhere in a subject. *)
Definition engine : Type := string -> string -> option (string -> bool).

(** How the store reads a pattern: the fragment as above, every other
    pattern as its engine does. *)
Definition reading (E : engine) (pattern options : string) : option (string -> bool) :=
  match compile pattern with
  | Some r => Some (search (PyStr.contains "i" options) r)
  | None => E pattern options
  end.

End Regex.

(** ** Queries of the store *)

Module Mongo.

(** What a filter asks of one field. *)
Inductive cond :=
| Eq (v : string)
| RegexOpt (pattern options : string)
| ElemMatch (pattern options : string).

(** One key of a filter: a field with its condition, or ["$or"] with its
    list of one-field filters. *)
Inductive clause :=
| Field (name : string) (c : cond)
| Or (alts : list (string * cond)).

Definition regex_on (E : Regex.engine) (pattern options : string)
    (subjects : list string) : option bool :=
  match Regex.reading E pattern options with
  | Some p => Some (existsb p subjects)
  | None => None
  end.

(** A condition against the value of its field; an array field satisfies
    an equality or a pattern when one of its elements does.  [None] when
    the store rejects the pattern: the query fails. *)
Definition cond_holds (E : Regex.engine) (c : cond) (v : option value) : option bool :=
  match c with
  | Eq s =>
      Some match v with
           | Some (BStr t) => String.eqb t s
           | Some (BArray xs) => existsb (fun t => String.eqb t s) xs
           | _ => false
           end
  | RegexOpt p o =>
      regex_on E p o match v with
                   | Some (BStr t) => [t]
                   | Some (BArray xs) => xs
                   | _ => []
                   end
  | ElemMatch p o =>
      regex_on E p o match v with
                   | Some (BArray xs) => xs
                   | _ => []
                   end
  end.

Fixpoint any_holds (E : Regex.engine) (alts : list (string * cond))
    (d : gmap string value) : option bool :=
  match alts with
  | [] => Some false
  | (name, c) :: rest =>
      match cond_holds E c (d !! name), any_holds E rest d with
      | Some a, Some b => Some (a || b)
      | _, _ => None
      end
  end.

Definition clause_holds (E : Regex.engine) (cl : clause) (d : gmap string value)
  : option bool :=
  match cl with
  | Field name c => cond_holds E c (d !! name)
  | Or alts => any_holds E alts d
  end.

(** The keys of a filter hold together; the empty filter holds of every
    document. *)
Fixpoint matches (E : Regex.engine) (filter : list clause) (d : gmap string value)
  : option bool :=
  match filter with
  | [] => Some true
  | cl :: rest =>
      match clause_holds E cl d, matches E rest d with
      | Some a, Some b => Some (a && b)
      | _, _ => None
      end
  end.

(** The documents of the collection that the filter holds of, in their
    order. *)
Fixpoint scan (E : Regex.engine) (coll : list (gmap string value)) (filter : list clause)
  : option (list (gmap string value)) :=
  match coll with
  | [] => Some []
  | d :: rest =>
      match matches E filter d, scan E rest filter with
      | Some true, Some ds => Some (d :: ds)
      | Some false, Some ds => Some ds
      | _, _ => None
      end
  end.

(** [collection.find(filter)]: the store reads the patterns of the filter
    before it looks at any document, so a pattern that it rejects fails
    the query on an empty collection too. *)
Definition find (E : Regex.engine) (coll : list (gmap string value)) (filter : list clause)
  : option (list (gmap string value)) :=
  match matches E filter ∅ with
  | Some _ => scan E coll filter
  | None => None
  end.

#[global] Instance byte_eq_dec : EqDecision byte := Byte.byte_eq_dec.

#[global] Instance ObjectId_eq_dec : EqDecision ObjectId.
Proof. solve_decision. Defined.

#[global] Instance value_eq_dec : EqDecision value.
Proof. solve_decision. Defined.

(** [collection.find_one({"_id": oid})] *)
Definition find_one (coll : list (gmap string value)) (oid : ObjectId)
  : option (gmap string value) :=
  List.find (fun d => bool_decide (d !! "_id" = Some (BObjectId oid))) coll.

End Mongo.

(** Modelled from the spec: [get_documents] of the missing [database]
    module, the repository's [find(filter, limit)]: the records that
    match the filter, in insertion order, truncated to [limit]. *)
Definition get_documents (E : Regex.engine) (w : world) (filter : list Mongo.clause)
    (limit : Z) : option (list (gmap string value)) :=
  match Mongo.find E (documents w) filter with
  | Some ds => Some (take (Z.to_nat limit) ds)
  | None => None
  end.

(** ** GET /api/documents *)

(** The filter that [list_documents] builds from its parameters. *)
Definition filter_query (q brand : option string) : list Mongo.clause :=
  ((match brand with
    | Some b => if PyStr.truthy brand then [Mongo.Field "brand" (Mongo.Eq b)] else []
    | None => []
    end) ++
   (match q with
    | Some t =>
        if PyStr.truthy q
        then [Mongo.Or [("title", Mongo.RegexOpt t "i");
                        ("description", Mongo.RegexOpt t "i");
                        ("tags", Mongo.ElemMatch t "i")]]
        else []
    | None => []
    end))%list.

(** The body of the loop over the documents found:
    [d["id"] = str(d.pop("_id"))] and [d.pop("path", None)]. *)
Definition project (d : gmap string value) : outcome (gmap string value) :=
  match d !! "_id" with
  | Some v => Ok (delete "path" (<["id" := BStr (Py.str v)]> (delete "_id" d)))
  | None => Raised KeyError
  end.

Fixpoint project_all (ds : list (gmap string value)) : outcome (list (gmap string value)) :=
  match ds with
  | [] => Ok []
  | d :: rest =>
      match project d with
      | Ok item =>
          match project_all rest with
          | Ok items => Ok (item :: items)
          | HTTPException c t => HTTPException c t
          | RequestValidationError ms => RequestValidationError ms
          | Raised x => Raised x
          end
      | HTTPException c t => HTTPException c t
      | RequestValidationError ms => RequestValidationError ms
      | Raised x => Raised x
      end
  end.

(** [list_documents]; the result is the list under ["items"], and [None]
    when the store rejects [q] as a pattern: the request fails. *)
Definition list_documents (E : Regex.engine) (w : world) (q brand : option string)
    (limit : Z) : option (outcome (list (gmap string value))) :=
  match get_documents E w (filter_query q brand) limit with
  | Some docs => Some (project_all docs)
  | None => None
  end.

(** ** GET /api/documents/{doc_id}/download and /view *)

Module FileResponse.

(** Starlette's [FileResponse] as far as the client sees it. *)
Record t := mk {
  path : string;
  filename : option string;
  media_type : string;
  content_disposition_type : string
}.

(** [FileResponse(path=..., filename=..., media_type=...)]: the keyword
    [content_disposition_type] is left at its default, "attachment". *)
Definition make (path : string) (filename : option string) (media_type : string) : t :=
  mk path filename media_type "attachment".

(** The disposition of the [Content-Disposition] header, which is sent
    only when a file name is given. *)
Definition disposition (r : t) : option string :=
  match filename r with
  | Some _ => Some (content_disposition_type r)
  | None => None
  end.

(** The [Content-Type] header: the media type, with the character set
    appended to a text type that names none. *)
Definition content_type (r : t) : string :=
  if PyStr.startswith "text/" (media_type r)
     && negb (PyStr.has "charset=" (PyStr.lower (media_type r)))
  then media_type r +:+ "; charset=utf-8"
  else media_type r.

(** The bytes streamed: the file at [path]. *)
Definition body (files : gmap string (list byte)) (r : t) : option (list byte) :=
  files !! path r.

End FileResponse.

(** [os.path.exists(v)]: a string names a path; an integer names a file
    descriptor, of which the model has none; any other value raises
    [TypeError]. *)
Definition os_path_exists (files : gmap string (list byte)) (v : value) : outcome bool :=
  match v with
  | BStr p => Ok (bool_decide (is_Some (files !! p)))
  | BInt _ => Ok false
  | _ => Raised TypeError
  end.

(** Building the response from the values read off the record: a file
    name is a string or [None], the other two are strings. *)
Definition file_response (file_path filename media_type : value) : outcome FileResponse.t :=
  match file_path, filename, media_type with
  | BStr p, BStr f, BStr m => Ok (FileResponse.make p (Some f) m)
  | BStr p, BNull, BStr m => Ok (FileResponse.make p None m)
  | _, _, _ => Raised TypeError
  end.

Definition download_document (w : world) (doc_id : string) : outcome FileResponse.t :=
  match Bson.parse doc_id with
  | None => HTTPException 400 "Invalid document id"
  | Some _id =>
      match Mongo.find_one (documents w) _id with
      | None => HTTPException 404 "Document not found"
      | Some doc =>
          if bool_decide (doc = ∅) then HTTPException 404 "Document not found"
          else
            let file_path := Py.get doc "path" in
            if negb (Py.truthy file_path)
            then HTTPException 404 "File not found on server"
            else
              match os_path_exists (fs w) file_path with
              | Ok true =>
                  let filename := Py.or (Py.get doc "original_name") (Py.get doc "filename") in
                  let media_type :=
                    Py.or (Py.get doc "content_type") (BStr "application/octet-stream") in
                  file_response file_path filename media_type
              | Ok false => HTTPException 404 "File not found on server"
              | HTTPException c d => HTTPException c d
              | RequestValidationError ms => RequestValidationError ms
              | Raised x => Raised x
              end
      end
  end.

Definition view_document (w : world) (doc_id : string) : outcome FileResponse.t :=
  match Bson.parse doc_id with
  | None => HTTPException 400 "Invalid document id"
  | Some _id =>
      match Mongo.find_one (documents w) _id with
      | None => HTTPException 404 "Document not found"
      | Some doc =>
          if bool_decide (doc = ∅) then HTTPException 404 "Document not found"
          else
            let file_path := Py.get doc "path" in
            if negb (Py.truthy file_path)
            then HTTPException 404 "File not found on server"
            else
              match os_path_exists (fs w) file_path with
              | Ok true =>
                  let filename := Py.or (Py.get doc "original_name") (Py.get doc "filename") in
                  let media_type :=
                    Py.or (Py.get doc "content_type") (BStr "application/octet-stream") in
                  file_response file_path filename media_type
              | Ok false => HTTPException 404 "File not found on server"
              | HTTPException c d => HTTPException c d
              | RequestValidationError ms => RequestValidationError ms
              | Raised x => Raised x
              end
      end
  end.

(** What the caller sees of a failed request: the status and the detail
    of the JSON body. *)
Definition error_body {A} (r : outcome A) : option (nat * string) :=
  match r with
  | HTTPException c d => Some (c, d)
  | _ => None
  end.

(** ** Reading the search contract *)

(** The record as the collection holds it: the dumped model under its
    identifier. *)
Definition stored (oid : ObjectId) (d : Document) : gmap string value :=
  <["_id" := BObjectId oid]> (Schemas.model_dump d).

(** [s.lower()] on the ASCII letters. *)
Fixpoint casefold (s : string) : string :=
  match s with
  | EmptyString => EmptyString
  | String c s' => String (Regex.lower c) (casefold s')
  end.

(** [q] is a case-insensitive substring of [s]. *)
Definition ci_substring (q s : string) : Prop :=
  exists pre post, casefold s = pre +:+ casefold q +:+ post.

(** The search contract in the words of the specification; a parameter is
    given when it is a non-empty string. *)
Definition spec_matches (q brand : option string) (d : Document) : Prop :=
  (forall b, brand = Some b -> PyStr.truthy brand = true -> Schemas.brand d = b) /\
  (forall t, q = Some t -> PyStr.truthy q = true ->
     ci_substring t (Schemas.title d) \/
     (exists s, Schemas.description d = Some s /\ ci_substring t s) \/
     (exists ts s, Schemas.tags d = Some ts /\ In s ts /\ ci_substring t s)).

(** A term without any character that a pattern reads specially. *)
Definition plain (t : string) : bool :=
  PyStr.all (fun c => negb (Regex.is_meta c)) t.

(** No white space at either end. *)
Definition trimmed (t : string) : Prop :=
  PyStr.lstrip t = t /\ PyStr.rstrip t = t.

(** Only commas and white space. *)
Definition blank_or_comma (c : ascii) : bool :=
  Ascii.eqb c "," || PyStr.isspace c.

(** The pattern that reads each character of [t] literally. *)
Fixpoint literal (t : string) : list Regex.atom :=
  match t with
  | EmptyString => []
  | String c t' => Regex.Lit c :: literal t'
  end.

(** Some text of the record contains [t], whatever the case: its title,
    its description or one of its tags. *)
Definition text_hit (t : string) (d : Document) : bool :=
  Regex.search true (literal t) (Schemas.title d) ||
  match Schemas.description d with
  | Some s => Regex.search true (literal t) s
  | None => false
  end ||
  match Schemas.tags d with
  | Some ts => existsb (Regex.search true (literal t)) ts
  | None => false
  end.

(** The blob of a record is missing from storage: the record names no
    path, or no file is at the path it names. *)
Definition blob_missing (w : world) (doc : gmap string value) : Prop :=
  Py.truthy (Py.get doc "path") = false \/
  exists p, doc !! "path" = Some (BStr p) /\ fs w !! p = None.

(** ** Sample data *)

Definition sample_oid : ObjectId :=
  mkObjectId [Byte.x65; Byte.x0a; Byte.x1b; Byte.x2c; Byte.x3d; Byte.x4e;
              Byte.x5f; Byte.x60; Byte.x71; Byte.x82; Byte.x93; Byte.xa4].

Definition other_oid : ObjectId :=
  mkObjectId [Byte.x65; Byte.x0a; Byte.x1b; Byte.x2c; Byte.x3d; Byte.x4e;
              Byte.x5f; Byte.x60; Byte.x71; Byte.x82; Byte.x93; Byte.xa5].

Definition manual_a : Document :=
  mkDocument "Otis" "Manual A" None (Some "application/pdf") (Some 3%Z)
    (Some "650a.pdf") (Some "m.pdf") (Some "storage/650a.pdf") None.

(** A record whose blob was removed from storage. *)
Definition manual_b : Document :=
  mkDocument "KONE" "Manual B" None None (Some 0%Z)
    (Some "650b.pdf") (Some "b.pdf") (Some "storage/650b.pdf") None.

Definition sample_world : world :=
  mkWorld "storage" {[ "storage/650a.pdf" := [Byte.x61; Byte.x62; Byte.x63] ]}
    [stored sample_oid manual_a; stored other_oid manual_b].

Definition sample_env : env := mkEnv sample_oid other_oid false None false.

Definition sample_file : UploadFile.t :=
  UploadFile.mk "plan.pdf" (Some "application/pdf") [Byte.x61].

(** ** Reading a record *)

(** The text under the key [k] of a record, if it holds text. *)
Definition text (doc : gmap string value) (k : string) : option string :=
  match doc !! k with
  | Some (BStr s) => Some s
  | _ => None
  end.

(** The key [k] of a record is missing, null or text, as the schema has
    its optional text fields. *)
Definition text_or_null (doc : gmap string value) (k : string) : Prop :=
  match doc !! k with
  | None | Some BNull | Some (BStr _) => True
  | Some _ => False
  end.

(** A hexadecimal digit of either case. *)
Definition is_hex (c : ascii) : bool :=
  match Bson.hexval c with
  | Some _ => true
  | None => false
  end.

Definition fresh_oid : ObjectId :=
  mkObjectId [Byte.x65; Byte.x0a; Byte.x1b; Byte.x2c; Byte.x3d; Byte.x4e;
              Byte.x5f; Byte.x60; Byte.x71; Byte.x82; Byte.x93; Byte.xa6].

Definition fresh_env : env := mkEnv sample_oid fresh_oid false None false.

(** ** GET /test *)

Module Health.

Local Open Scope list_scope.

(** The texts of this endpoint hold symbols beyond Latin-1: a [str] is
    here the list of its code points. *)
Definition text : Type := list N.

(** The code points of a text of the ASCII range. *)
Fixpoint codes (s : string) : text :=
  match s with
  | EmptyString => []
  | String c s' => N_of_ascii c :: codes s'
  end.

(** U+2705, U+274C, and U+26A0 with its variation selector U+FE0F. *)
Definition check_mark : text := [9989%N].
Definition cross_mark : text := [10060%N].
Definition warning_sign : text := [9888%N; 65039%N].

(** What [db.list_collection_names()] does. *)
Inductive listing :=
| Names (names : list text)
| ListingRaises (message : text).

(** The database handle: its [name] attribute, when it has one, and the
    collections it lists. *)
Record handle := mkHandle {
  name : option text;
  list_collection_names : listing
}.

(** What [from database import db] does; [message] is [str(e)]. *)
Inductive imported :=
| ImportError
| ImportRaises (message : text)
| Db (db : option handle).

(** The two variables read by [os.getenv]. *)
Record environ := mkEnviron {
  DATABASE_URL : option text;
  DATABASE_NAME : option text
}.

Record response := mkResponse {
  backend : text;
  database : text;
  database_url : option text;
  database_name : option text;
  connection_status : text;
  collections : list text
}.

Definition set_database (v : text) (r : response) : response :=
  mkResponse (backend r) v (database_url r) (database_name r)
    (connection_status r) (collections r).

Definition set_database_url (v : option text) (r : response) : response :=
  mkResponse (backend r) (database r) v (database_name r)
    (connection_status r) (collections r).

Definition set_database_name (v : option text) (r : response) : response :=
  mkResponse (backend r) (database r) (database_url r) v
    (connection_status r) (collections r).

Definition set_connection_status (v : text) (r : response) : response :=
  mkResponse (backend r) (database r) (database_url r) (database_name r)
    v (collections r).

Definition set_collections (v : list text) (r : response) : response :=
  mkResponse (backend r) (database r) (database_url r) (database_name r)
    (connection_status r) v.

(** Truthiness of what [os.getenv] returns. *)
Definition truthy (v : option text) : bool :=
  match v with
  | Some (_ :: _) => true
  | _ => false
  end.

Definition initial : response :=
  mkResponse (check_mark ++ codes " Running") (cross_mark ++ codes " Not Available")
    None None (codes "Not Connected") [].

(** The outer [try] statement with its two handlers. *)
Definition probe (i : imported) (r : response) : response :=
  match i with
  | Db (Some db) =>
      let r := set_database (check_mark ++ codes " Available") r in
      let r := set_database_url (Some (check_mark ++ codes " Configured")) r in
      let r := set_database_name
                 (Some match name db with
                       | Some n => n
                       | None => check_mark ++ codes " Connected"
                       end) r in
      let r := set_connection_status (codes "Connected") r in
      match list_collection_names db with
      | Names names =>
          let r := set_collections (take 10 names) r in
          set_database (check_mark ++ codes " Connected & Working") r
      | ListingRaises e =>
          set_database (warning_sign ++ codes "  Connected but Error: " ++ take 50 e) r
      end
  | Db None =>
      set_database (warning_sign ++ codes "  Available but not initialized") r
  | ImportError =>
      set_database
        (cross_mark ++ codes " Database module not found (run enable-database first)") r
  | ImportRaises e =>
      set_database (cross_mark ++ codes " Error: " ++ take 50 e) r
  end.

Definition test_database (i : imported) (env : environ) : response :=
  let r := probe i initial in
  let r := set_database_url
             (Some (if truthy (DATABASE_URL env)
                    then check_mark ++ codes " Set"
                    else cross_mark ++ codes " Not Set")) r in
  set_database_name
    (Some (if truthy (DATABASE_NAME env)
           then check_mark ++ codes " Set"
           else cross_mark ++ codes " Not Set")) r.

End Health.

(** ** Reading the contracts, continued *)

(** One of the texts that a term is matched against satisfies [p]: the
    title of the record, its description or one of its tags. *)
Definition some_text (p : string -> bool) (d : Document) : bool :=
  p (Schemas.title d) ||
  match Schemas.description d with
  | Some s => p s
  | None => false
  end ||
  match Schemas.tags d with
  | Some ts => existsb p ts
  | None => false
  end.

(** No white space at either end, said of the characters: the first and
    the last character of [t], if any, are not white space. *)
Definition bare (t : string) : Prop :=
  (forall c s, t = String c s -> PyStr.isspace c = false) /\
  (forall s c, t = s +:+ String c EmptyString -> PyStr.isspace c = false).

(** [t] is [piece] without the white space around it. *)
Definition trimmed_of (piece t : string) : Prop :=
  bare t /\
  exists left right,
    piece = left +:+ t +:+ right /\
    PyStr.all PyStr.isspace left = true /\ PyStr.all PyStr.isspace right = true.

(** Pairs of hexadecimal digits with white space before, between and
    after the pairs, but not inside one. *)
Inductive hex_pairs : string -> Prop :=
| pairs_end : hex_pairs EmptyString
| pairs_space c s :
    Bson.c_isspace c = true -> hex_pairs s -> hex_pairs (String c s)
| pairs_digits c d s :
    is_hex c = true -> is_hex d = true -> hex_pairs s ->
    hex_pairs (String c (String d s)).

(** The identifiers that [ObjectId(...)] accepts. *)
Definition accepted (doc_id : string) : Prop :=
  String.length doc_id = 24 /\ hex_pairs doc_id.

(** The identifiers of the system's format: 24 hexadecimal digits. *)
Definition well_formed (doc_id : string) : Prop :=
  String.length doc_id = 24 /\ PyStr.all is_hex doc_id = true.

(** A sample engine for the patterns that leave the fragment: it reads a
    caret followed by plain text as that text at the start of the
    subject, and rejects every other pattern. *)
Definition sample_engine : Regex.engine :=
  fun pattern options =>
    match pattern with
    | String "^" t =>
        if plain t
        then Some (Regex.match_here (PyStr.contains "i" options) (literal t))
        else None
    | _ => None
    end.

(** * Python strings *)

Section StringFacts.

Variable sep : ascii.

Lemma split_nonempty s : PyStr.split sep s <> [].
Proof.
  destruct s as [|c s]; simpl; [discriminate|].
  destruct (Ascii.eqb c sep); [discriminate|].
  destruct (PyStr.split sep s); discriminate.
Qed.

Lemma split_length s : length (PyStr.split sep s) = S (PyStr.count sep s).
Proof.
  induction s as [|c s IH]; simpl; [reflexivity|].
  destruct (Ascii.eqb c sep); simpl; [now rewrite IH|].
  destruct (PyStr.split sep s); simpl in *; [discriminate|assumption].
Qed.

Lemma count_contains s : PyStr.contains sep s = negb (Nat.eqb (PyStr.count sep s) 0).
Proof.
  induction s as [|c s IH]; simpl; [reflexivity|].
  destruct (Ascii.eqb c sep); simpl; [reflexivity|assumption].
Qed.

Lemma split_no_sep s : PyStr.contains sep s = false -> PyStr.split sep s = [s].
Proof.
  induction s as [|c s IH]; simpl; [reflexivity|].
  destruct (Ascii.eqb c sep); simpl; [discriminate|].
  intros H. now rewrite (IH H).
Qed.

Lemma last_cons_nonempty (x : string) xs :
  xs <> [] -> PyStr.last_piece (x :: xs) = PyStr.last_piece xs.
Proof. destruct xs; [congruence|reflexivity]. Qed.

Lemma last_piece_no_sep s :
  PyStr.contains sep (PyStr.last_piece (PyStr.split sep s)) = false.
Proof.
  induction s as [|c s IH]; simpl; [reflexivity|].
  destruct (Ascii.eqb c sep) eqn:E.
  - rewrite last_cons_nonempty; [assumption|apply split_nonempty].
  - destruct (PyStr.split sep s) as [|h t] eqn:Es; [now destruct (split_nonempty s)|].
    destruct t as [|h' t].
    + unfold PyStr.last_piece in *. simpl in *. now rewrite E.
    + exact IH.
Qed.

Lemma last_piece_suffix s :
  PyStr.contains sep s = true ->
  exists pre, s = pre +:+ String sep (PyStr.last_piece (PyStr.split sep s)).
Proof.
  induction s as [|c s IH]; simpl; [discriminate|].
  destruct (Ascii.eqb c sep) eqn:E; simpl.
  - intros _. apply Ascii.eqb_eq in E. subst c.
    rewrite last_cons_nonempty by apply split_nonempty.
    destruct (PyStr.contains sep s) eqn:Ec.
    + destruct (IH eq_refl) as [pre Hpre].
      exists (String sep pre). exact (f_equal (String sep) Hpre).
    + exists EmptyString. rewrite (split_no_sep _ Ec). reflexivity.
  - intros Hc. destruct (IH Hc) as [pre Hpre].
    pose proof (split_length s) as Hl.
    rewrite count_contains in Hc.
    destruct (PyStr.split sep s) as [|h t] eqn:Es; [discriminate|].
    destruct t as [|h' t].
    + simpl in Hl. injection Hl as Hl. rewrite <- Hl in Hc. discriminate.
    + exists (String c pre). exact (f_equal (String c) Hpre).
Qed.

End StringFacts.

Lemma count_app c s t : PyStr.count c (s +:+ t) = PyStr.count c s + PyStr.count c t.
Proof. induction s as [|d s IH]; simpl; [reflexivity|]. rewrite IH. lia. Qed.

Lemma all_lstrip s : PyStr.all PyStr.isspace (PyStr.lstrip s) = PyStr.all PyStr.isspace s.
Proof.
  induction s as [|c s IH]; simpl; [reflexivity|].
  destruct (PyStr.isspace c) eqn:E; simpl; [assumption|now rewrite E].
Qed.

Lemma rstrip_empty s : PyStr.rstrip s = EmptyString <-> PyStr.all PyStr.isspace s = true.
Proof.
  induction s as [|c s IH]; simpl; [tauto|].
  destruct (PyStr.rstrip s) eqn:Er.
  - destruct (PyStr.isspace c); simpl.
    + split; [intros _; now apply IH|reflexivity].
    + split; discriminate.
  - split; [discriminate|]. intros H. apply andb_true_iff in H as [_ H].
    apply IH in H. discriminate.
Qed.

Lemma strip_empty s : PyStr.strip s = EmptyString <-> PyStr.all PyStr.isspace s = true.
Proof. unfold PyStr.strip. now rewrite rstrip_empty, all_lstrip. Qed.

Lemma rstrip_idem s : PyStr.rstrip (PyStr.rstrip s) = PyStr.rstrip s.
Proof.
  induction s as [|c s IH]; simpl; [reflexivity|].
  destruct (PyStr.rstrip s) as [|d r] eqn:Er.
  - destruct (PyStr.isspace c) eqn:E; simpl; [reflexivity|now rewrite E].
  - change (PyStr.rstrip (String c (String d r))) with
      (match PyStr.rstrip (String d r) with
       | EmptyString => if PyStr.isspace c then EmptyString else String c EmptyString
       | x => String c x end).
    now rewrite IH.
Qed.

Lemma lstrip_rstrip s : PyStr.lstrip (PyStr.rstrip s) = PyStr.rstrip (PyStr.lstrip s).
Proof.
  induction s as [|c s IH]; simpl; [reflexivity|].
  destruct (PyStr.isspace c) eqn:E.
  - destruct (PyStr.rstrip s) as [|d r] eqn:Er.
    + rewrite <- IH. reflexivity.
    + rewrite <- IH. simpl. now rewrite E.
  - destruct (PyStr.rstrip s) as [|d r] eqn:Er; simpl; rewrite E, ?Er; reflexivity.
Qed.

Lemma lstrip_idem s : PyStr.lstrip (PyStr.lstrip s) = PyStr.lstrip s.
Proof.
  induction s as [|c s IH]; simpl; [reflexivity|].
  destruct (PyStr.isspace c) eqn:E; simpl; [assumption|now rewrite E].
Qed.

Lemma strip_trimmed s : trimmed (PyStr.strip s).
Proof.
  unfold trimmed, PyStr.strip. split.
  - now rewrite lstrip_rstrip, lstrip_idem.
  - apply rstrip_idem.
Qed.

Lemma split_blank s :
  forallb (PyStr.all PyStr.isspace) (PyStr.split "," s) = PyStr.all blank_or_comma s.
Proof.
  induction s as [|c s IH]; simpl; [reflexivity|].
  unfold blank_or_comma at 1.
  destruct (Ascii.eqb c ",") eqn:E; simpl; [assumption|].
  destruct (PyStr.split "," s) as [|h t] eqn:Es; [now destruct (split_nonempty "," s)|].
  simpl in *. rewrite <- IH. now rewrite andb_assoc.
Qed.

Lemma strip_all_empty xs :
  Forall (fun t => t = EmptyString) (map PyStr.strip xs) <->
  forallb (PyStr.all PyStr.isspace) xs = true.
Proof.
  induction xs as [|x xs IH]; simpl.
  - split; [reflexivity|constructor].
  - rewrite andb_true_iff, <- IH, <- strip_empty. split.
    + intros H. inversion H; subst. now split.
    + intros [H1 H2]. now constructor.
Qed.

Lemma join_split sep s :
  PyStr.join (String sep EmptyString) (PyStr.split sep s) = s.
Proof.
  induction s as [|c s IH]; [reflexivity|]. cbn [PyStr.split].
  destruct (Ascii.eqb_spec c sep) as [->|Hc].
  - destruct (PyStr.split sep s) as [|h t] eqn:Es; [now destruct (split_nonempty sep s)|].
    change (PyStr.join (String sep EmptyString) (EmptyString :: h :: t))
      with (String sep (PyStr.join (String sep EmptyString) (h :: t))).
    now rewrite IH.
  - destruct (PyStr.split sep s) as [|h [|h' t]] eqn:Es;
      [now destruct (split_nonempty sep s)|..].
    + cbn [PyStr.join] in *. now rewrite IH.
    + change (PyStr.join (String sep EmptyString) (String c h :: h' :: t))
        with (String c (PyStr.join (String sep EmptyString) (h :: h' :: t))).
      now rewrite IH.
Qed.

Lemma split_pieces_no_sep sep s :
  Forall (fun p => PyStr.contains sep p = false) (PyStr.split sep s).
Proof.
  induction s as [|c s IH]; cbn [PyStr.split]; [repeat constructor|].
  destruct (Ascii.eqb c sep) eqn:Ec; [constructor; [reflexivity|assumption]|].
  destruct (PyStr.split sep s) as [|h t]; [repeat constructor; cbn; now rewrite Ec|].
  inversion IH as [|? ? Hh Ht]; subst. constructor; [|assumption].
  cbn [PyStr.contains]. now rewrite Ec, Hh.
Qed.

Lemma lstrip_left t :
  exists left, t = left +:+ PyStr.lstrip t /\ PyStr.all PyStr.isspace left = true.
Proof.
  induction t as [|c t (left & Ht & Hl)]; cbn [PyStr.lstrip]; [now exists EmptyString|].
  destruct (PyStr.isspace c) eqn:Ec; [|now exists EmptyString].
  exists (String c left). split; [exact (f_equal (String c) Ht)|].
  cbn [PyStr.all]. now rewrite Ec, Hl.
Qed.

Lemma rstrip_right t :
  exists right, t = PyStr.rstrip t +:+ right /\ PyStr.all PyStr.isspace right = true.
Proof.
  induction t as [|c t (right & Ht & Hr)]; cbn [PyStr.rstrip]; [now exists EmptyString|].
  destruct (PyStr.rstrip t) as [|x r] eqn:Er.
  - destruct (PyStr.isspace c) eqn:Ec.
    + exists (String c right). split; [exact (f_equal (String c) Ht)|].
      cbn [PyStr.all]. now rewrite Ec, Hr.
    + exists right. split; [exact (f_equal (String c) Ht)|assumption].
  - exists right. split; [exact (f_equal (String c) Ht)|assumption].
Qed.

Lemma rstrip_last t : forall s c,
  PyStr.rstrip t = s +:+ String c EmptyString -> PyStr.isspace c = false.
Proof.
  induction t as [|x t IH]; intros s c; cbn [PyStr.rstrip].
  - destruct s; discriminate.
  - destruct (PyStr.rstrip t) as [|y r] eqn:Er.
    + destruct (PyStr.isspace x) eqn:Ex; [destruct s; discriminate|].
      destruct s as [|z [|z' s]]; intros [= -> ]; try assumption.
    + destruct s as [|z s]; [discriminate|].
      intros H. injection H as _ H. now apply (IH s c).
Qed.

Lemma lstrip_length s : String.length (PyStr.lstrip s) <= String.length s.
Proof.
  induction s as [|c s IH]; cbn [PyStr.lstrip]; [lia|].
  destruct (PyStr.isspace c); simpl; lia.
Qed.

Lemma trimmed_bare t : trimmed t -> bare t.
Proof.
  intros [Hl Hr]. split.
  - intros c s ->. cbn [PyStr.lstrip] in Hl.
    destruct (PyStr.isspace c) eqn:Ec; [|reflexivity]. exfalso.
    pose proof (lstrip_length s) as Hlen. rewrite Hl in Hlen. simpl in Hlen. lia.
  - intros s c ->. exact (rstrip_last _ s c Hr).
Qed.

Lemma strip_trimmed_of t : trimmed_of t (PyStr.strip t).
Proof.
  split; [apply trimmed_bare, strip_trimmed|].
  destruct (lstrip_left t) as (left & Ht & Hl).
  destruct (rstrip_right (PyStr.lstrip t)) as (right & Hs & Hr).
  exists left, right. unfold PyStr.strip. now rewrite <- Hs.
Qed.

(** * Tag parsing *)

(** C2, refuted as stated: a comma alone is split into two pieces, both
    empty once trimmed, so the parser produces a sequence that contains
    only empty strings. *)
Lemma parse_tags_only_empty :
  parse_tags (Some ",") = Some [EmptyString; EmptyString] /\
  Forall (fun t => t = EmptyString) [EmptyString; EmptyString].
Proof. split; [reflexivity|repeat constructor]. Qed.

(** C2, as amended: the tags field is split on the comma and every piece
    is trimmed ("a, b ,c" gives a, b, c); an absent or empty input leaves
    the field absent; every other input is cut at its commas into pieces
    that hold none, and the tags are these pieces, one for one and in
    order, each without the white space around it; they are all empty
    exactly when the input holds nothing but commas and white space. *)
Theorem parse_tags_pieces :
  parse_tags (Some "a, b ,c") = Some ["a"; "b"; "c"] /\
  parse_tags None = None /\
  parse_tags (Some EmptyString) = None /\
  (forall raw, raw <> EmptyString ->
     exists pieces l, parse_tags (Some raw) = Some l /\
       PyStr.join "," pieces = raw /\
       Forall (fun p => PyStr.contains "," p = false) pieces /\
       Forall2 trimmed_of pieces l /\
       length l = S (PyStr.count "," raw) /\
       Forall trimmed l /\
       (Forall (fun t => t = EmptyString) l <-> PyStr.all blank_or_comma raw = true)).
Proof.
  repeat split; try reflexivity.
  - destruct raw as [|c raw]; [congruence|].
    exists (PyStr.split "," (String c raw)). eexists. split; [reflexivity|].
    split; [apply join_split|]. split; [apply split_pieces_no_sep|]. split; [|split; [|split]].
    + induction (PyStr.split "," (String c raw)) as [|p ps IH]; cbn [map]; constructor;
        [apply strip_trimmed_of|exact IH].
    + now rewrite length_map, split_length.
    + apply Forall_map, Forall_forall. intros t _. apply strip_trimmed.
    + now rewrite strip_all_empty, split_blank.
Qed.

Lemma parse_tags_pieces_witness :
  exists pieces l, parse_tags (Some " , ") = Some l /\
    PyStr.join "," pieces = " , " /\
    Forall (fun p => PyStr.contains "," p = false) pieces /\
    Forall2 trimmed_of pieces l /\
    length l = S (PyStr.count "," " , ") /\
    Forall trimmed l /\
    (Forall (fun t => t = EmptyString) l <-> PyStr.all blank_or_comma " , " = true).
Proof.
  apply (proj2 (proj2 (proj2 parse_tags_pieces)) " , "). discriminate.
Defined.

(** * Stored name *)

Lemma hex_of_byte_no_dot b : PyStr.count "." (Bson.hex_of_byte b) = 0.
Proof. destruct b; reflexivity. Qed.

Lemma str_no_dot oid : PyStr.count "." (Bson.str oid) = 0.
Proof.
  destruct oid as [bs]. unfold Bson.str. cbn [binary].
  induction bs as [|b bs IH]; cbn [fold_right]; [reflexivity|].
  now rewrite count_app, hex_of_byte_no_dot, IH.
Qed.

(** C5: with a dot in the client's file name the stored name is the
    generated identifier, a dot and the text after the last dot; without
    one it is the identifier alone.  Nothing else of the client's name
    reaches it: two names with the same extension are stored alike, and a
    name with a traversal sequence (two dots or more) is never the stored
    name. *)
Theorem stored_name_derivation (oid : ObjectId) (filename : string) :
  (PyStr.contains "." filename = true ->
     exists pre ext,
       filename = pre +:+ "." +:+ ext /\ PyStr.contains "." ext = false /\
       stored_name oid filename = Bson.str oid +:+ "." +:+ ext) /\
  (PyStr.contains "." filename = false -> stored_name oid filename = Bson.str oid) /\
  (forall other,
     PyStr.contains "." other = PyStr.contains "." filename ->
     PyStr.last_piece (PyStr.split "." other) = PyStr.last_piece (PyStr.split "." filename) ->
     stored_name oid other = stored_name oid filename) /\
  (2 <= PyStr.count "." filename -> stored_name oid filename <> filename) /\
  stored_name oid "../../etc/passwd" = Bson.str oid +:+ "./etc/passwd".
Proof.
  unfold stored_name. repeat split.
  - intros H. rewrite H. destruct (last_piece_suffix "." filename H) as [pre Hpre].
    exists pre, (PyStr.last_piece (PyStr.split "." filename)).
    repeat split; [exact Hpre|apply last_piece_no_sep].
  - intros H. now rewrite H.
  - intros other H1 H2. now rewrite H1, H2.
  - intros H Heq.
    assert (Hc : PyStr.count "." filename <= 1); [|lia].
    rewrite <- Heq at 1.
    destruct (PyStr.contains "." filename).
    + rewrite !count_app, str_no_dot. simpl.
      pose proof (last_piece_no_sep "." filename) as Hn.
      rewrite count_contains in Hn.
      destruct (PyStr.count "." (PyStr.last_piece (PyStr.split "." filename)));
        [lia|discriminate].
    + rewrite str_no_dot. lia.
Qed.

Lemma stored_name_derivation_witness :
  stored_name sample_oid "../../etc/passwd" <> "../../etc/passwd".
Proof.
  apply (proj1 (proj2 (proj2 (proj2 (stored_name_derivation sample_oid "../../etc/passwd"))))).
  simpl. lia.
Defined.

(** * Required form fields *)

(** C3: an upload whose brand or title is missing or empty is answered by
    a validation error that names the field, and the world is left as it
    was: no blob is written and no record is inserted. *)
Theorem required_fields_first (e : env) (w : world) (f : upload_form) :
  (form_brand f = None \/ form_brand f = Some EmptyString \/
   form_title f = None \/ form_title f = Some EmptyString) ->
  exists missing,
    post_documents e w f = Some (RequestValidationError missing, w) /\
    (form_brand f = None \/ form_brand f = Some EmptyString -> In "brand" missing) /\
    (form_title f = None \/ form_title f = Some EmptyString -> In "title" missing).
Proof.
  intros H. exists (missing_fields f). unfold post_documents, missing_fields.
  destruct f as [b t d g fl]; simpl in *.
  destruct b as [[|cb b]|], t as [[|ct t]|]; simpl;
    try (destruct H as [H|[H|[H|H]]]; discriminate);
    (split; [destruct (form_upload fl); reflexivity|]);
    split; intros [K|K]; try discriminate; simpl; auto.
Qed.

Lemma required_fields_first_witness :
  exists missing,
    post_documents sample_env sample_world
      (mkForm (Some EmptyString) (Some "Plan") None None (Some sample_file))
    = Some (RequestValidationError missing, sample_world) /\
    (Some EmptyString = None \/ Some EmptyString = Some EmptyString -> In "brand" missing) /\
    (Some "Plan" = None \/ Some "Plan" = Some EmptyString -> In "title" missing).
Proof.
  apply (required_fields_first sample_env sample_world
           (mkForm (Some EmptyString) (Some "Plan") None None (Some sample_file))).
  simpl. right. left. reflexivity.
Defined.

(** * The blob writer *)

Lemma read_app n s :
  s = (fst (UploadFile.read n s) ++ snd (UploadFile.read n s))%list.
Proof.
  revert n. induction s as [|b s IH]; intros n; simpl; [reflexivity|].
  destruct (n =? 0)%N; [reflexivity|].
  specialize (IH (N.pred n)). destruct (UploadFile.read (N.pred n) s) as [c r].
  simpl in *. now f_equal.
Qed.

Lemma read_length n s :
  N.of_nat (length (fst (UploadFile.read n s))) = N.min n (N.of_nat (length s)).
Proof.
  revert n. induction s as [|b s IH]; intros n; simpl length; [simpl; lia|].
  cbn [UploadFile.read]. destruct (N.eqb_spec n 0) as [->|Hn]; [simpl; lia|].
  specialize (IH (N.pred n)). destruct (UploadFile.read (N.pred n) s) as [c r].
  simpl in *. lia.
Qed.

(** The loop ends within the fuel given.  It ends normally with the whole
    stream appended, which happens when the failing write is not reached;
    or it raises at the failing write, leaving less than the stream. *)
Lemma copy_loop_spec fuel fault i s written :
  length s < fuel ->
  exists res out,
    copy_loop fuel fault i s written = Some (res, out) /\
    ((res = Ok tt /\ out = (written ++ s)%list /\
      forall k, fault = Some k -> i <= k ->
        (N.of_nat i * CHUNK + N.of_nat (length s) <= N.of_nat k * CHUNK)%N) \/
     (res = Raised OSError /\
      (exists k, fault = Some k /\ i <= k /\
         (N.of_nat k * CHUNK < N.of_nat i * CHUNK + N.of_nat (length s))%N) /\
      exists pre, out = (written ++ pre)%list /\ length pre < length s)).
Proof.
  revert i s written. induction fuel as [|fuel IH]; intros i s written Hf; [lia|].
  cbn [copy_loop].
  pose proof (read_app CHUNK s) as Happ.
  pose proof (read_length CHUNK s) as Hlen.
  destruct (UploadFile.read CHUNK s) as [chunk rest]. cbn [fst snd] in *.
  assert (Hs : length s = length chunk + length rest)
    by (rewrite Happ at 1; apply length_app).
  destruct chunk as [|b chunk].
  - exists (Ok tt), written. split; [reflexivity|]. left.
    assert (s = []) as ->.
    { destruct s; [reflexivity|]. simpl in Hlen. unfold CHUNK in Hlen. lia. }
    rewrite app_nil_r. repeat split. intros k _ Hk. simpl. unfold CHUNK. lia.
  - destruct (bool_decide (fault = Some i)) eqn:Ed.
    + apply bool_decide_eq_true in Ed.
      exists (Raised OSError), written. split; [reflexivity|]. right.
      split; [reflexivity|]. split.
      * exists i. repeat split; [assumption|lia|]. simpl in Hs. lia.
      * exists []. rewrite app_nil_r. split; [reflexivity|]. simpl in *. lia.
    + apply bool_decide_eq_false in Ed.
      destruct (IH (S i) rest (written ++ b :: chunk)%list) as (res & out & Hrun & Hres).
      { simpl in Hs. lia. }
      exists res, out. split; [exact Hrun|].
      destruct Hres as [(-> & -> & Hb)|(-> & (k & Hk & Hik & Hreach) & pre & -> & Hpre)].
      * left. split; [reflexivity|]. split.
        { rewrite Happ. now rewrite <- app_assoc. }
        intros k Hk Hik.
        assert (S i <= k) as Hik'.
        { destruct (Nat.eq_dec i k); [subst; congruence|lia]. }
        specialize (Hb k Hk Hik'). unfold CHUNK in *. simpl length in *. lia.
      * right. split; [reflexivity|]. split.
        { exists k. repeat split; [assumption|lia|].
          unfold CHUNK in *. simpl length in *. lia. }
        exists ((b :: chunk) ++ pre)%list. split; [now rewrite app_assoc|].
        rewrite length_app. simpl length in *. lia.
Qed.

(** * Upload *)

Section Upload.

Variables (e : env) (w : world) (brand title : string)
  (description tags : option string) (file : UploadFile.t).

Let stored_as := stored_name (name_oid e) (UploadFile.filename file).
Let storage_path := os_path_join (STORAGE_DIR w) stored_as.
Let content := UploadFile.stream file.

(** The record that a successful upload inserts. *)
Let record :=
  stored (record_oid e)
    (mkDocument brand title description (UploadFile.content_type file)
       (Some (Z.of_nat (length content))) (Some stored_as)
       (Some (UploadFile.filename file)) (Some storage_path) (parse_tags tags)).

(** Every run of the handler ends, in one of four ways. *)
Lemma upload_document_cases :
  exists res w',
    upload_document e w brand title description tags file = Some (res, w') /\
    ((open_fails e = true /\ res = Raised OSError /\ w' = w) \/
     (open_fails e = false /\
      (exists k, write_fails_at e = Some k /\
         (N.of_nat k * CHUNK < N.of_nat (length content))%N) /\
      res = Raised OSError /\ documents w' = documents w /\
      exists pre, fs w' !! storage_path = Some pre /\ length pre < length content) \/
     (~ blob_write_fails e file /\ insert_fails e = true /\
      res = Raised PersistenceError /\ documents w' = documents w /\
      fs w' !! storage_path = Some content) \/
     (~ blob_write_fails e file /\ insert_fails e = false /\
      res = Ok (mkUploaded (Bson.str (record_oid e)) "Uploaded") /\
      documents w' = (documents w ++ [record])%list /\
      fs w' !! storage_path = Some content)).
Proof.
  unfold upload_document, blob_write_fails.
  fold stored_as. fold storage_path. fold content.
  destruct (copy_loop_spec (S (length content)) (write_fails_at e) 0 content [])
    as (res & out & Hrun & Hres); [lia|].
  rewrite Hrun. unfold bind, open_wb, flush, getsize, raise, ret, create_document.
  destruct (open_fails e) eqn:Eo.
  { do 2 eexists. split; [reflexivity|]. left. now repeat split. }
  destruct Hres as [(-> & -> & Hb)|(-> & (k & Hk & _ & Hreach) & pre & -> & Hpre)].
  - cbn [fs documents STORAGE_DIR app]. rewrite lookup_insert_eq.
    unfold Schemas.validate. cbn [Schemas.size].
    assert ((0 <=? Z.of_nat (length content))%Z = true) as -> by (apply Z.leb_le; lia).
    assert (Hno : ~ (false = true \/
               exists k, write_fails_at e = Some k /\
                 (N.of_nat k * CHUNK < N.of_nat (length content))%N)).
    { intros [?|(k & Hk & Hlt)]; [discriminate|].
      specialize (Hb k Hk ltac:(lia)). lia. }
    destruct (insert_fails e) eqn:Ei; do 2 eexists; (split; [reflexivity|]).
    + right. right. left. cbn [fs documents]. rewrite lookup_insert_eq. now repeat split.
    + right. right. right. cbn [fs documents]. rewrite lookup_insert_eq. now repeat split.
  - do 2 eexists. split; [reflexivity|]. right. left.
    cbn [fs documents]. rewrite lookup_insert_eq.
    repeat split; eauto.
Qed.

Lemma record_path : record !! "path" = Some (BStr storage_path).
Proof. reflexivity. Qed.

Lemma record_size : record !! "size" = Some (BInt (Z.of_nat (length content))).
Proof. reflexivity. Qed.

Lemma snoc_neq {A} (l : list A) x : (l ++ [x])%list <> l.
Proof.
  intros H. apply (f_equal (@length A)) in H. rewrite length_app in H. simpl in H. lia.
Qed.

(** C6: the record is inserted only once the blob is written in full, so
    no record exists for a blob whose write failed; and the upload does
    not report success when the write to storage or the insert failed. *)
Theorem upload_atomic :
  exists res w',
    upload_document e w brand title description tags file = Some (res, w') /\
    (blob_write_fails e file -> is_ok res = false /\ documents w' = documents w) /\
    (insert_fails e = true -> is_ok res = false /\ documents w' = documents w) /\
    (documents w' <> documents w ->
       documents w' = (documents w ++ [record])%list /\
       record !! "path" = Some (BStr storage_path) /\
       fs w' !! storage_path = Some content) /\
    (is_ok res = true ->
       documents w' = (documents w ++ [record])%list /\
       fs w' !! storage_path = Some content).
Proof.
  destruct upload_document_cases as (res & w' & Hrun & Hcase).
  exists res, w'. split; [exact Hrun|].
  unfold blob_write_fails in *. fold content in Hcase |- *.
  destruct Hcase as [(Ho & -> & ->)|[(Ho & Hw & -> & Hd & _)|
    [(Hn & Hi & -> & Hd & Hf)|(Hn & Hi & -> & Hd & Hf)]]]; cbn [is_ok].
  - repeat split; try congruence; try discriminate.
  - repeat split; try congruence; try discriminate.
  - repeat split; try congruence; try discriminate; tauto.
  - repeat split; try congruence; try discriminate; try tauto.
Qed.

(** C7: after a successful upload the size of the record is the length in
    bytes of the blob stored at its path, which is the content received,
    whatever its length: none, one byte, or more than a chunk. *)
Theorem size_is_blob_length (r : upload_response) (w' : world) :
  upload_document e w brand title description tags file = Some (Ok r, w') ->
  exists d blob,
    last (documents w') = Some d /\
    d !! "path" = Some (BStr storage_path) /\
    fs w' !! storage_path = Some blob /\
    blob = content /\
    d !! "size" = Some (BInt (Z.of_nat (length blob))).
Proof.
  intros Hrun.
  destruct upload_document_cases as (res & w1 & Hrun' & Hcase).
  rewrite Hrun in Hrun'. injection Hrun' as <- <-.
  destruct Hcase as [(_ & Hr & _)|[(_ & _ & Hr & _)|
    [(_ & _ & Hr & _)|(_ & _ & _ & Hd & Hf)]]]; try discriminate.
  exists record, content. rewrite Hd, last_snoc.
  split; [reflexivity|]. split; [apply record_path|].
  split; [exact Hf|]. split; [reflexivity|apply record_size].
Qed.

End Upload.

Lemma upload_atomic_witness :
  exists res w',
    upload_document (mkEnv sample_oid other_oid false (Some 0) false) sample_world
      "Otis" "Plan" None None sample_file = Some (res, w') /\
    is_ok res = false /\ documents w' = documents sample_world.
Proof.
  destruct (upload_atomic (mkEnv sample_oid other_oid false (Some 0) false) sample_world
              "Otis" "Plan" None None sample_file) as (res & w' & Hrun & Hw & _).
  exists res, w'. split; [exact Hrun|]. apply Hw.
  right. exists 0. split; [reflexivity|]. vm_compute. reflexivity.
Defined.

Lemma size_is_blob_length_witness :
  exists r w',
    upload_document sample_env sample_world "Otis" "Plan" None (Some "a, b") sample_file
      = Some (Ok r, w') /\
    exists d blob,
      last (documents w') = Some d /\
      d !! "path" = Some (BStr (os_path_join (STORAGE_DIR sample_world)
                                  (stored_name (name_oid sample_env)
                                     (UploadFile.filename sample_file)))) /\
      fs w' !! os_path_join (STORAGE_DIR sample_world)
                 (stored_name (name_oid sample_env) (UploadFile.filename sample_file))
        = Some blob /\
      blob = UploadFile.stream sample_file /\
      d !! "size" = Some (BInt (Z.of_nat (length blob))).
Proof.
  do 2 eexists. split; [reflexivity|].
  eapply (size_is_blob_length sample_env sample_world "Otis" "Plan" None (Some "a, b")
            sample_file).
  reflexivity.
Defined.

(** * Search: projection *)

Lemma scan_subset E coll filter : forall ds,
  Mongo.scan E coll filter = Some ds -> forall d, In d ds -> In d coll.
Proof.
  induction coll as [|c coll IH]; simpl; intros ds H d Hd.
  - injection H as <-. destruct Hd.
  - destruct (Mongo.matches E filter c) as [[|]|]; try discriminate;
      destruct (Mongo.scan E coll filter) as [ds'|]; try discriminate;
      injection H as <-.
    + destruct Hd as [->|Hd]; [now left|right; eauto].
    + right; eauto.
Qed.

Lemma find_subset E coll filter ds :
  Mongo.find E coll filter = Some ds -> forall d, In d ds -> In d coll.
Proof.
  unfold Mongo.find. destruct (Mongo.matches E filter ∅); [|discriminate].
  apply scan_subset.
Qed.

Lemma in_take {A} n (l : list A) x : In x (take n l) -> In x l.
Proof.
  revert l. induction n as [|n IH]; intros [|y l]; simpl; try tauto.
  intros [->|H]; [now left|right; auto].
Qed.

Lemma project_all_in ds : forall items,
  project_all ds = Ok items ->
  forall item, In item items -> exists d, In d ds /\ project d = Ok item.
Proof.
  induction ds as [|d ds IH]; simpl; intros items H item Hin.
  - injection H as <-. destruct Hin.
  - destruct (project d) as [it| | |] eqn:Ep; try discriminate.
    destruct (project_all ds) as [its| | |]; try discriminate.
    injection H as <-. destruct Hin as [<-|Hin].
    + exists d. split; [now left|assumption].
    + destruct (IH its eq_refl item Hin) as (d' & Hd' & Hp).
      exists d'. split; [now right|assumption].
Qed.

(** C8: every item of a search response is a stored record without its
    path, with its internal identifier moved to the string field id, and
    otherwise unchanged; this holds of every search that the store
    answers, whatever the term and however the store reads it. *)
Theorem search_projection (E : Regex.engine) (w : world) (q brand : option string)
    (limit : Z) (items : list (gmap string value)) (item : gmap string value) :
  list_documents E w q brand limit = Some (Ok items) ->
  In item items ->
  item !! "path" = None /\
  item !! "_id" = None /\
  exists d v,
    In d (documents w) /\ d !! "_id" = Some v /\
    item !! "id" = Some (BStr (Py.str v)) /\
    forall k, k <> "path" -> k <> "_id" -> k <> "id" -> item !! k = d !! k.
Proof.
  unfold list_documents, get_documents. intros H Hin.
  destruct (Mongo.find E (documents w) (filter_query q brand)) as [ds|] eqn:Ef;
    [|discriminate].
  injection H as H.
  destruct (project_all_in _ _ H item Hin) as (d & Hd & Hp).
  apply in_take in Hd. apply (find_subset _ _ _ _ Ef) in Hd.
  unfold project in Hp. destruct (d !! "_id") as [v|] eqn:Ev; [|discriminate].
  injection Hp as <-.
  split; [apply lookup_delete_eq|]. split.
  - rewrite lookup_delete_ne, lookup_insert_ne by discriminate. apply lookup_delete_eq.
  - exists d, v. repeat split; try assumption.
    + rewrite lookup_delete_ne by discriminate. apply lookup_insert_eq.
    + intros k H1 H2 H3.
      now rewrite lookup_delete_ne, lookup_insert_ne, lookup_delete_ne by congruence.
Qed.

Lemma search_projection_witness :
  exists items item,
    list_documents sample_engine sample_world (Some "^Manual") None 100
      = Some (Ok items) /\
    In item items /\
    item !! "path" = None /\
    item !! "_id" = None /\
    exists d v,
      In d (documents sample_world) /\ d !! "_id" = Some v /\
      item !! "id" = Some (BStr (Py.str v)) /\
      forall k, k <> "path" -> k <> "_id" -> k <> "id" -> item !! k = d !! k.
Proof.
  do 2 eexists.
  split; [reflexivity|]. split; [left; reflexivity|].
  eapply (search_projection sample_engine sample_world (Some "^Manual") None 100);
    [reflexivity|left; reflexivity].
Defined.

(** C10: at the search endpoint an empty q and an empty brand constrain
    nothing: the response is the one given when they are left out. *)
Theorem empty_parameter_is_absent (E : Regex.engine) (w : world)
    (q brand : option string) (limit : Z) :
  list_documents E w (Some EmptyString) brand limit = list_documents E w None brand limit /\
  list_documents E w q (Some EmptyString) limit = list_documents E w q None limit /\
  list_documents E w (Some EmptyString) (Some EmptyString) limit
    = list_documents E w None None limit.
Proof. repeat split. Qed.

(** * Download and view *)

Lemma view_is_download (w : world) (doc_id : string) :
  view_document w doc_id = download_document w doc_id.
Proof. reflexivity. Qed.

(** C1, at the record of [manual_a]: download and view return the same
    bytes and the same content type, and the view operation answers with
    the disposition "attachment" as the download does, not "inline". *)
Theorem view_disposition_is_attachment :
  exists dl vw,
    download_document sample_world "650a1b2c3d4e5f60718293a4" = Ok dl /\
    view_document sample_world "650a1b2c3d4e5f60718293a4" = Ok vw /\
    FileResponse.body (fs sample_world) vw = FileResponse.body (fs sample_world) dl /\
    FileResponse.body (fs sample_world) vw = Some [Byte.x61; Byte.x62; Byte.x63] /\
    FileResponse.content_type vw = FileResponse.content_type dl /\
    FileResponse.disposition dl = Some "attachment" /\
    FileResponse.disposition vw = Some "attachment".
Proof. do 2 eexists. repeat split; reflexivity. Qed.

Lemma find_one_id coll oid doc :
  Mongo.find_one coll oid = Some doc -> doc !! "_id" = Some (BObjectId oid).
Proof.
  unfold Mongo.find_one. intros H. apply find_some in H as [_ H].
  now apply bool_decide_eq_true in H.
Qed.

Lemma parse_length doc_id : String.length doc_id <> 24 -> Bson.parse doc_id = None.
Proof.
  intros H. unfold Bson.parse.
  destruct (Nat.eqb_spec (String.length doc_id) 24); [contradiction|reflexivity].
Qed.

(** C9, refuted as stated: the record of [manual_b] has lost its blob and
    no record has the other identifier; both requests are answered 404,
    but with different details, so the caller tells the two cases apart.
    And a text of 24 characters with blanks between its pairs of digits
    is no well-formed identifier, yet it is not answered 400. *)
Lemma not_found_cases_differ :
  download_document sample_world "650a1b2c3d4e5f60718293a5"
    = HTTPException 404 "File not found on server" /\
  download_document sample_world "650a1b2c3d4e5f60718293a6"
    = HTTPException 404 "Document not found" /\
  error_body (download_document sample_world "650a1b2c3d4e5f60718293a5")
    <> error_body (download_document sample_world "650a1b2c3d4e5f60718293a6") /\
  String.length "650a1b2c3d4e5f607182  a4" = 24 /\
  PyStr.all is_hex "650a1b2c3d4e5f607182  a4" = false /\
  download_document sample_world "650a1b2c3d4e5f607182  a4"
    = HTTPException 404 "Document not found".
Proof. repeat split. discriminate. Qed.

Lemma hex_not_space c : is_hex c = true -> Bson.c_isspace c = false.
Proof.
  unfold is_hex, Bson.c_isspace, Bson.hexval. generalize (N_of_ascii c). intros m.
  repeat match goal with
         | |- context [(?a <=? ?b)%N] => destruct (N.leb_spec a b)
         | |- context [(?a =? ?b)%N] => destruct (N.eqb_spec a b)
         end; cbn; intros; try discriminate; try reflexivity; lia.
Qed.

Lemma fromhex_pairs s :
  (forall bs, Bson.fromhex s = Some bs -> hex_pairs s) /\
  (forall c bs, Bson.fromhex (String c s) = Some bs -> hex_pairs (String c s)).
Proof.
  induction s as [|d s [IH1 IH2]].
  - split; [intros _ _; constructor|]. intros c bs. cbn [Bson.fromhex].
    destruct (Bson.c_isspace c) eqn:Ec; [|discriminate].
    intros _. now repeat constructor.
  - assert (Hd : forall bs, Bson.fromhex (String d s) = Some bs -> hex_pairs (String d s))
      by apply IH2.
    split; [exact Hd|]. intros c bs. cbn [Bson.fromhex].
    destruct (Bson.c_isspace c) eqn:Ec.
    + intros H. constructor; [assumption|]. now apply (Hd bs).
    + destruct (Bson.hexval c) eqn:Hc; [|discriminate].
      destruct (Bson.hexval d) eqn:Hd'; [|discriminate].
      destruct (Bson.fromhex s) as [bs'|] eqn:Hs; [|discriminate].
      intros _. apply pairs_digits; unfold is_hex; rewrite ?Hc, ?Hd'; eauto.
Qed.

Lemma pairs_fromhex s : hex_pairs s -> exists bs, Bson.fromhex s = Some bs.
Proof.
  induction 1 as [|c s Hc _ (bs & Hbs)|c d s Hc Hd _ (bs & Hbs)].
  - now exists [].
  - exists bs. cbn [Bson.fromhex]. now rewrite Hc.
  - cbn [Bson.fromhex]. rewrite (hex_not_space c Hc). unfold is_hex in Hc, Hd.
    destruct (Bson.hexval c); [|discriminate].
    destruct (Bson.hexval d); [|discriminate].
    rewrite Hbs. eauto.
Qed.

Lemma parse_accepted doc_id :
  (exists oid, Bson.parse doc_id = Some oid) <-> accepted doc_id.
Proof.
  unfold Bson.parse, accepted. destruct (Nat.eqb_spec (String.length doc_id) 24) as [Hl|Hl].
  - split.
    + intros (oid & H). destruct (Bson.fromhex doc_id) as [bs|] eqn:Hf; [|discriminate].
      split; [assumption|]. exact (proj1 (fromhex_pairs doc_id) bs Hf).
    + intros [_ Hp]. destruct (pairs_fromhex doc_id Hp) as (bs & ->). eauto.
  - split; [intros (oid & H); discriminate|]. intros [H _]. contradiction.
Qed.

Lemma parse_none_rejected doc_id : Bson.parse doc_id = None <-> ~ accepted doc_id.
Proof.
  rewrite <- parse_accepted. destruct (Bson.parse doc_id) as [oid|].
  - split; [discriminate|]. intros H. destruct H. eauto.
  - split; [|reflexivity]. intros _ (oid & H). discriminate.
Qed.

Lemma digits_pairs : forall n s,
  String.length s = 2 * n -> PyStr.all is_hex s = true -> hex_pairs s.
Proof.
  induction n as [|n IH]; intros s Hl Hh.
  - destruct s; [constructor|discriminate].
  - destruct s as [|c [|d s]]; try (simpl in Hl; lia).
    cbn [PyStr.all] in Hh. apply andb_true_iff in Hh as [Hc Hh].
    apply andb_true_iff in Hh as [Hd Hh].
    apply pairs_digits; [assumption..|]. apply IH; [simpl in Hl; lia|assumption].
Qed.

Lemma download_400 w doc_id :
  download_document w doc_id = HTTPException 400 "Invalid document id"
  <-> Bson.parse doc_id = None.
Proof.
  unfold download_document. destruct (Bson.parse doc_id) as [oid|]; [|tauto].
  split; [|discriminate]. intros H. exfalso. revert H.
  destruct (Mongo.find_one (documents w) oid) as [doc|]; [|discriminate].
  destruct (bool_decide (doc = ∅)); [discriminate|].
  destruct (negb (Py.truthy (Py.get doc "path"))); [discriminate|].
  unfold os_path_exists, file_response.
  destruct (Py.get doc "path") as [|p|n|o|xs]; try discriminate.
  destruct (bool_decide (is_Some (fs w !! p))); [|discriminate].
  destruct (Py.or (Py.get doc "original_name") (Py.get doc "filename")),
    (Py.or (Py.get doc "content_type") (BStr "application/octet-stream")); discriminate.
Qed.

(** C9, as amended: download and view answer 400 exactly to the
    identifiers that [ObjectId] does not accept, which are the texts that
    are not 24 characters of hexadecimal digit pairs and white space
    around the pairs; 24 hexadecimal digits are accepted, and so is a
    24-character text with white space between its pairs of digits.  An
    accepted identifier with no record, or with a record whose blob is
    missing from storage, is answered 404; the two 404 answers have the
    same status and different details, "Document not found" and "File
    not found on server". *)
Theorem malformed_and_not_found (w : world) (doc_id : string) :
  (download_document w doc_id = HTTPException 400 "Invalid document id"
   <-> ~ accepted doc_id) /\
  (view_document w doc_id = HTTPException 400 "Invalid document id"
   <-> ~ accepted doc_id) /\
  (well_formed doc_id -> accepted doc_id) /\
  (String.length doc_id <> 24 -> Bson.parse doc_id = None) /\
  (Bson.parse doc_id = None ->
     download_document w doc_id = HTTPException 400 "Invalid document id" /\
     view_document w doc_id = HTTPException 400 "Invalid document id") /\
  (forall oid, Bson.parse doc_id = Some oid ->
     Mongo.find_one (documents w) oid = None ->
     download_document w doc_id = HTTPException 404 "Document not found" /\
     view_document w doc_id = HTTPException 404 "Document not found") /\
  (forall oid doc, Bson.parse doc_id = Some oid ->
     Mongo.find_one (documents w) oid = Some doc ->
     blob_missing w doc ->
     download_document w doc_id = HTTPException 404 "File not found on server" /\
     view_document w doc_id = HTTPException 404 "File not found on server").
Proof.
  split; [now rewrite download_400, parse_none_rejected|].
  split; [change (view_document w doc_id) with (download_document w doc_id);
          now rewrite download_400, parse_none_rejected|].
  split; [intros [Hl Hh]; split; [assumption|]; now apply (digits_pairs 12)|].
  split; [apply parse_length|].
  unfold view_document, download_document.
  split; [intros ->; now split|].
  split; [intros oid -> ->; now split|].
  intros oid doc -> Hf Hm. rewrite Hf.
  pose proof (find_one_id _ _ _ Hf) as Hid.
  destruct (bool_decide (doc = ∅)) eqn:Ee.
  { apply bool_decide_eq_true in Ee. subst doc. rewrite lookup_empty in Hid. discriminate. }
  destruct Hm as [Hm|(p & Hp & Hfs)].
  - rewrite Hm. now split.
  - unfold Py.get. rewrite Hp. cbn [Py.truthy os_path_exists].
    destruct (PyStr.truthy (Some p)); cbn [negb]; [|now split].
    rewrite Hfs. rewrite bool_decide_eq_false_2; [now split|].
    intros [x Hx]. discriminate.
Qed.

Lemma malformed_and_not_found_witness :
  download_document sample_world "650a1b2c3d4e5f60718293a5"
    = HTTPException 404 "File not found on server" /\
  view_document sample_world "650a1b2c3d4e5f60718293a5"
    = HTTPException 404 "File not found on server".
Proof.
  apply (proj2 (proj2 (proj2 (proj2 (proj2 (proj2
           (malformed_and_not_found sample_world "650a1b2c3d4e5f60718293a5"))))))
           other_oid (stored other_oid manual_b)); [reflexivity|reflexivity|].
  right. exists "storage/650b.pdf". split; reflexivity.
Defined.

(** * Search: the filter *)

Lemma compile_plain t : plain t = true -> Regex.compile t = Some (literal t).
Proof.
  unfold plain. induction t as [|c t IH]; cbn [PyStr.all Regex.compile literal];
    [reflexivity|].
  intros H. apply andb_true_iff in H as [Hc Ht]. rewrite (IH Ht).
  destruct (Ascii.eqb_spec c ".") as [->|_]; [discriminate|].
  apply negb_true_iff in Hc. now rewrite Hc.
Qed.

Lemma match_here_prefix t : forall s,
  Regex.match_here true (literal t) s = true <->
  exists post, casefold s = casefold t +:+ post.
Proof.
  induction t as [|c t IH]; intros s; cbn [literal Regex.match_here casefold].
  - split; [intros _; now exists (casefold s)|reflexivity].
  - destruct s as [|d s]; cbn [casefold Regex.atom_matches].
    + split; [discriminate|]. intros [post H]. discriminate.
    + rewrite andb_true_iff, IH, Ascii.eqb_eq. split.
      * intros [Hc [post Hp]]. exists post. cbn [String.append]. now rewrite Hc, Hp.
      * intros [post Hp]. cbn [String.append] in Hp. injection Hp as Hc Hp. eauto.
Qed.

Lemma search_substring t : forall s,
  Regex.search true (literal t) s = true <-> ci_substring t s.
Proof.
  unfold ci_substring.
  induction s as [|d s IH]; cbn [Regex.search]; rewrite orb_true_iff, match_here_prefix.
  - split.
    + intros [[post H]|H]; [|discriminate]. now exists EmptyString, post.
    + intros (pre & post & H). left. destruct pre; [|discriminate]. now exists post.
  - rewrite IH. cbn [casefold]. split.
    + intros [[post H]|(pre & post & H)].
      * now exists EmptyString, post.
      * exists (String (Regex.lower d) pre), post. cbn [String.append]. now rewrite H.
    + intros (pre & post & H). destruct pre as [|c pre].
      * left. now exists post.
      * right. cbn [String.append] in H. injection H as _ H. eauto.
Qed.

Lemma reading_plain E t :
  plain t = true -> Regex.reading E t "i" = Some (Regex.search true (literal t)).
Proof. intros H. unfold Regex.reading. now rewrite (compile_plain t H). Qed.

Lemma regex_on_plain E t subjects :
  plain t = true ->
  Mongo.regex_on E t "i" subjects = Some (existsb (Regex.search true (literal t)) subjects).
Proof. intros H. unfold Mongo.regex_on. now rewrite (reading_plain E t H). Qed.

(** The term is read once, as one pattern, and tried on the three texts
    of the record. *)
Lemma or_clause_reading E t oid d :
  Mongo.any_holds E [("title", Mongo.RegexOpt t "i");
                     ("description", Mongo.RegexOpt t "i");
                     ("tags", Mongo.ElemMatch t "i")] (stored oid d)
  = match Regex.reading E t "i" with
    | Some p => Some (some_text p d)
    | None => None
    end.
Proof.
  cbn [Mongo.any_holds].
  change (stored oid d !! "title") with (Some (BStr (Schemas.title d))).
  change (stored oid d !! "description") with (Some (Schemas.dump_str (Schemas.description d))).
  change (stored oid d !! "tags")
    with (Some match Schemas.tags d with Some xs => BArray xs | None => BNull end).
  unfold Mongo.cond_holds, Mongo.regex_on, some_text.
  destruct (Regex.reading E t "i") as [p|]; [|reflexivity].
  destruct (Schemas.description d), (Schemas.tags d); cbn [Schemas.dump_str existsb];
    rewrite ?orb_false_r, ?orb_false_l, ?orb_assoc; reflexivity.
Qed.

Lemma or_clause E t oid d :
  plain t = true ->
  Mongo.any_holds E [("title", Mongo.RegexOpt t "i");
                     ("description", Mongo.RegexOpt t "i");
                     ("tags", Mongo.ElemMatch t "i")] (stored oid d)
  = Some (text_hit t d).
Proof. intros H. now rewrite or_clause_reading, (reading_plain E t H). Qed.

Lemma brand_clause E b oid d :
  Mongo.clause_holds E (Mongo.Field "brand" (Mongo.Eq b)) (stored oid d)
  = Some (String.eqb (Schemas.brand d) b).
Proof. reflexivity. Qed.

Lemma some_text_spec p d :
  some_text p d = true <->
  (p (Schemas.title d) = true \/
   (exists s, Schemas.description d = Some s /\ p s = true) \/
   (exists ts s, Schemas.tags d = Some ts /\ In s ts /\ p s = true)).
Proof.
  unfold some_text. rewrite !orb_true_iff. split.
  - intros [[H|H]|H]; [now left|right; left|right; right].
    + destruct (Schemas.description d) as [s|]; [|discriminate]. eauto.
    + destruct (Schemas.tags d) as [ts|]; [|discriminate].
      apply existsb_exists in H as (s & Hin & Hs). eauto.
  - intros [H|[(s & -> & H)|(ts & s & -> & Hin & H)]].
    + now left; left.
    + now left; right.
    + right. apply existsb_exists. eauto.
Qed.

Lemma text_hit_spec t d :
  text_hit t d = true <->
  (ci_substring t (Schemas.title d) \/
   (exists s, Schemas.description d = Some s /\ ci_substring t s) \/
   (exists ts s, Schemas.tags d = Some ts /\ In s ts /\ ci_substring t s)).
Proof.
  change (text_hit t d) with (some_text (Regex.search true (literal t)) d).
  rewrite some_text_spec, search_substring. split.
  - intros [H|[(s & Hs & H)|(ts & s & Hs & Hin & H)]]; [now left|right; left|right; right].
    + exists s. split; [assumption|now apply search_substring].
    + exists ts, s. repeat split; [assumption..|now apply search_substring].
  - intros [H|[(s & Hs & H)|(ts & s & Hs & Hin & H)]]; [now left|right; left|right; right].
    + exists s. split; [assumption|now apply search_substring].
    + exists ts, s. repeat split; [assumption..|now apply search_substring].
Qed.

Lemma matches_app E f1 f2 d :
  Mongo.matches E (f1 ++ f2) d =
  match Mongo.matches E f1 d, Mongo.matches E f2 d with
  | Some a, Some b => Some (a && b)
  | _, _ => None
  end.
Proof.
  induction f1 as [|cl f1 IH]; cbn [app Mongo.matches].
  - now destruct (Mongo.matches E f2 d).
  - rewrite IH. destruct (Mongo.clause_holds E cl d), (Mongo.matches E f1 d),
      (Mongo.matches E f2 d); try reflexivity. now rewrite andb_assoc.
Qed.

Lemma filter_query_split q brand :
  filter_query q brand = (filter_query None brand ++ filter_query q None)%list.
Proof. unfold filter_query. now rewrite app_nil_r. Qed.

(** The brand alone: exact equality, or no constraint when it is not
    given. *)
Lemma brand_part E brand oid d :
  Mongo.matches E (filter_query None brand) (stored oid d)
  = Some match brand with
         | Some (String c b) => String.eqb (Schemas.brand d) (String c b)
         | _ => true
         end.
Proof.
  destruct brand as [[|c b]|]; unfold filter_query; cbn [PyStr.truthy app Mongo.matches];
    try reflexivity.
  rewrite brand_clause. now rewrite andb_true_r.
Qed.

(** The term alone: the store's reading of it, tried on the three texts,
    or no constraint when it is not given. *)
Lemma term_part E q oid d :
  Mongo.matches E (filter_query q None) (stored oid d)
  = match q with
    | Some (String c t) =>
        match Regex.reading E (String c t) "i" with
        | Some p => Some (some_text p d)
        | None => None
        end
    | _ => Some true
    end.
Proof.
  destruct q as [[|c t]|]; unfold filter_query; cbn [PyStr.truthy app Mongo.matches];
    try reflexivity.
  cbn [Mongo.clause_holds]. rewrite or_clause_reading.
  destruct (Regex.reading E (String c t) "i"); [|reflexivity]. now rewrite andb_true_r.
Qed.

(** C4, refuted as stated: the term "." is given to the store as a
    pattern, where a dot stands for any character, so the record titled
    "Manual A" matches although no text of it contains a dot. *)
Lemma dot_matches_without_substring :
  Mongo.matches sample_engine (filter_query (Some ".") None) (stored sample_oid manual_a)
    = Some true /\
  (spec_matches (Some ".") None manual_a -> False).
Proof.
  split; [reflexivity|]. intros [_ H].
  destruct (H "." eq_refl eq_refl) as [(pre & post & Hs)|[(s & Hs & _)|(ts & s & Hs & _)]];
    try discriminate.
  apply (f_equal (PyStr.count ".")) in Hs. rewrite !count_app in Hs.
  simpl in Hs. lia.
Qed.

(** C4, as amended: for every term and every brand, a brand that is given
    must equal the brand of the record exactly, and the two constraints
    hold together when both are given; a term q that is given is handed
    to the store unescaped, as one case-insensitive pattern tried on the
    title, on the description and on each tag, any of which may match;
    when q holds no character with a meaning in a pattern, this is to say
    that q is, whatever the case, a substring of one of these texts; and
    every record matches when neither is given. *)
Theorem search_filter_semantics (E : Regex.engine) (q brand : option string)
    (oid : ObjectId) (d : Document) :
  (forall b, brand = Some b -> PyStr.truthy brand = true ->
     Mongo.matches E (filter_query q brand) (stored oid d) = Some true ->
     Schemas.brand d = b) /\
  (forall b, brand = Some b -> PyStr.truthy brand = true ->
     Mongo.matches E (filter_query None brand) (stored oid d)
       = Some (String.eqb (Schemas.brand d) b)) /\
  (forall t, q = Some t -> PyStr.truthy q = true ->
     Mongo.matches E (filter_query q None) (stored oid d)
       = match Regex.reading E t "i" with
         | Some p => Some (some_text p d)
         | None => None
         end) /\
  (forall t, plain t = true ->
     exists p, Regex.reading E t "i" = Some p /\
       forall s, p s = true <-> ci_substring t s) /\
  (Mongo.matches E (filter_query q brand) (stored oid d) = Some true <->
     Mongo.matches E (filter_query None brand) (stored oid d) = Some true /\
     Mongo.matches E (filter_query q None) (stored oid d) = Some true) /\
  (PyStr.truthy q = false -> PyStr.truthy brand = false ->
     Mongo.matches E (filter_query q brand) (stored oid d) = Some true) /\
  ((forall t, q = Some t -> plain t = true) ->
     exists b,
       Mongo.matches E (filter_query q brand) (stored oid d) = Some b /\
       (b = true <-> spec_matches q brand d)).
Proof.
  assert (Hand : Mongo.matches E (filter_query q brand) (stored oid d) = Some true <->
            Mongo.matches E (filter_query None brand) (stored oid d) = Some true /\
            Mongo.matches E (filter_query q None) (stored oid d) = Some true).
  { rewrite (filter_query_split q brand), matches_app.
    destruct (Mongo.matches E (filter_query None brand) (stored oid d)) as [[|]|],
      (Mongo.matches E (filter_query q None) (stored oid d)) as [[|]|]; cbn;
      split; try discriminate; try tauto; intros [? ?]; discriminate. }
  split; [|split; [|split; [|split; [|split; [exact Hand|split]]]]].
  - intros b -> Hb H. apply Hand in H as [H _]. rewrite brand_part in H.
    destruct b as [|c b]; [discriminate|]. injection H as H. now apply String.eqb_eq.
  - intros b -> Hb. rewrite brand_part. destruct b; [discriminate|reflexivity].
  - intros t -> Ht. rewrite term_part. destruct t; [discriminate|reflexivity].
  - intros t Ht. exists (Regex.search true (literal t)).
    split; [apply reading_plain, Ht|]. intros s. apply search_substring.
  - intros Hq Hb. unfold filter_query.
    destruct q as [[|? ?]|], brand as [[|? ?]|]; try discriminate; reflexivity.
  - intros Hq. rewrite (filter_query_split q brand), matches_app, brand_part, term_part.
    assert (Hterm :
      match q with
      | Some (String c t) =>
          match Regex.reading E (String c t) "i" with
          | Some p => Some (some_text p d)
          | None => None
          end
      | _ => Some true
      end = Some match q with
                 | Some (String c t) => text_hit (String c t) d
                 | _ => true
                 end).
    { destruct q as [[|c t]|]; try reflexivity.
      now rewrite (reading_plain E _ (Hq _ eq_refl)). }
    rewrite Hterm. eexists. split; [reflexivity|].
    rewrite andb_true_iff. unfold spec_matches. split.
    + intros [Hb Ht]. split.
      * intros b -> Htr. destruct b as [|cb b]; [discriminate|]. now apply String.eqb_eq.
      * intros t -> Htr. destruct t as [|cq t]; [discriminate|]. now apply text_hit_spec.
    + intros [Hb Ht]. split.
      * destruct brand as [[|cb b]|]; try reflexivity. apply String.eqb_eq. now apply Hb.
      * destruct q as [[|cq t]|]; try reflexivity. apply text_hit_spec. now apply Ht.
Qed.

Lemma search_filter_semantics_witness :
  exists b,
    Mongo.matches sample_engine (filter_query (Some "manual") (Some "Otis"))
      (stored sample_oid manual_a) = Some b /\
    (b = true <-> spec_matches (Some "manual") (Some "Otis") manual_a).
Proof.
  apply (proj2 (proj2 (proj2 (proj2 (proj2 (proj2
           (search_filter_semantics sample_engine (Some "manual") (Some "Otis")
              sample_oid manual_a))))))).
  intros t [= <-]. reflexivity.
Defined.

(** The three queries of the filter-composition example. *)
Example filter_composition :
  let otis := stored sample_oid manual_a in
  let kone := stored other_oid manual_b in
  Mongo.find sample_engine [otis; kone] (filter_query None (Some "Otis")) = Some [otis] /\
  Mongo.find sample_engine [otis; kone] (filter_query (Some "manual") None)
    = Some [otis; kone] /\
  Mongo.find sample_engine [otis; kone] (filter_query (Some "B") (Some "Otis")) = Some [].
Proof. repeat split. Qed.

(** * Identifiers as text *)

Lemma fromhex_hex_of_byte b s :
  Bson.fromhex (Bson.hex_of_byte b +:+ s) =
  match Bson.fromhex s with
  | Some bs => Some (b :: bs)
  | None => None
  end.
Proof. destruct b; reflexivity. Qed.

Lemma length_hex_of_byte b s :
  String.length (Bson.hex_of_byte b +:+ s) = S (S (String.length s)).
Proof. reflexivity. Qed.

Lemma fromhex_str bs : Bson.fromhex (Bson.str (mkObjectId bs)) = Some bs.
Proof.
  unfold Bson.str. cbn [binary].
  induction bs as [|b bs IH]; cbn [fold_right]; [reflexivity|].
  now rewrite fromhex_hex_of_byte, IH.
Qed.

Lemma length_str oid : String.length (Bson.str oid) = 2 * length (binary oid).
Proof.
  destruct oid as [bs]. unfold Bson.str. cbn [binary].
  induction bs as [|b bs IH]; cbn [fold_right]; [reflexivity|].
  rewrite length_hex_of_byte, IH. simpl. lia.
Qed.

Lemma parse_str oid :
  length (binary oid) = 12 -> Bson.parse (Bson.str oid) = Some oid.
Proof.
  intros H. pose proof (length_str oid) as Hl. rewrite H in Hl.
  unfold Bson.parse. rewrite Hl. cbn [Nat.eqb].
  destruct oid as [bs]. now rewrite fromhex_str.
Qed.

(** X1: The text of a twelve-byte identifier, as the upload and the search
    return it, is read back by [ObjectId(...)] as the same identifier. *)
Theorem parse_str_roundtrip (oid : ObjectId) :
  length (binary oid) = 12 ->
  String.length (Bson.str oid) = 24 /\ Bson.parse (Bson.str oid) = Some oid.
Proof.
  intros H. pose proof (length_str oid) as Hl. rewrite H in Hl.
  split; [exact Hl|]. now apply parse_str.
Qed.

Lemma parse_str_roundtrip_witness :
  String.length (Bson.str sample_oid) = 24 /\
  Bson.parse (Bson.str sample_oid) = Some sample_oid.
Proof. apply (parse_str_roundtrip sample_oid). reflexivity. Defined.

(** * Upload: what is left behind *)

Lemma copy_loop_raised fuel k : forall i s written out,
  copy_loop fuel (Some k) i s written = Some (Raised OSError, out) ->
  i <= k ->
  exists pre rest,
    s = (pre ++ rest)%list /\ rest <> [] /\ out = (written ++ pre)%list /\
    N.of_nat (length pre) = (N.of_nat (k - i) * CHUNK)%N.
Proof.
  induction fuel as [|fuel IH]; intros i s written out Hrun Hik; [discriminate|].
  cbn [copy_loop] in Hrun.
  pose proof (read_app CHUNK s) as Happ.
  pose proof (read_length CHUNK s) as Hlen.
  destruct (UploadFile.read CHUNK s) as [chunk rest0]. cbn [fst snd] in *.
  destruct chunk as [|b chunk]; [discriminate|].
  destruct (bool_decide (Some k = Some i)) eqn:Ed.
  - apply bool_decide_eq_true in Ed. injection Ed as ->. injection Hrun as <-.
    exists [], s. rewrite app_nil_r, Nat.sub_diag. repeat split.
    rewrite Happ. discriminate.
  - apply bool_decide_eq_false in Ed.
    assert (S i <= k) as Hik' by (destruct (Nat.eq_dec i k); [subst; congruence|lia]).
    destruct (IH _ _ _ _ Hrun Hik') as (pre & rest & Hr & Hne & Hout & Hl).
    exists ((b :: chunk) ++ pre)%list, rest. repeat split.
    + rewrite Happ, Hr. now rewrite app_assoc.
    + exact Hne.
    + rewrite Hout. now rewrite app_assoc.
    + assert (length rest0 > 0).
      { rewrite Hr, length_app. destruct rest; [congruence|simpl; lia]. }
      assert (length s = length (b :: chunk) + length rest0)
        by (rewrite Happ at 1; apply length_app).
      rewrite length_app. unfold CHUNK in *. lia.
Qed.

Lemma find_one_snoc coll oid d :
  Mongo.find_one coll oid = None ->
  d !! "_id" = Some (BObjectId oid) ->
  Mongo.find_one (coll ++ [d]) oid = Some d.
Proof.
  unfold Mongo.find_one. intros Hn Hd.
  induction coll as [|c coll IH]; cbn [app find] in *.
  - now rewrite bool_decide_eq_true_2.
  - destruct (bool_decide (c !! "_id" = Some (BObjectId oid))); [discriminate|auto].
Qed.

Lemma os_path_join_nonempty a b : b <> EmptyString -> os_path_join a b <> EmptyString.
Proof.
  intros Hb. unfold os_path_join.
  destruct b as [|c b]; [congruence|].
  assert (Hgen : match a with
                 | EmptyString => String c b
                 | String _ _ =>
                     if String.eqb (PyStr.last_piece (PyStr.split "/" a)) EmptyString
                     then a +:+ String c b else a +:+ "/" +:+ String c b
                 end <> EmptyString).
  { destruct a as [|x a]; [discriminate|].
    destruct (String.eqb _ _); discriminate. }
  destruct c as [[] [] [] [] [] [] [] []]; try exact Hgen; discriminate.
Qed.

Lemma str_nonempty oid :
  binary oid <> [] -> exists c s, Bson.str oid = String c s.
Proof.
  destruct oid as [[|b bs]]; cbn [binary]; [congruence|]. intros _.
  unfold Bson.str. cbn [binary fold_right]. unfold Bson.hex_of_byte.
  cbn [String.append]. eauto.
Qed.

Lemma stored_name_nonempty oid filename :
  binary oid <> [] -> stored_name oid filename <> EmptyString.
Proof.
  intros H. destruct (str_nonempty oid H) as (c & s & Hs).
  unfold stored_name. rewrite Hs.
  destruct (PyStr.contains "." filename); discriminate.
Qed.

Section UploadEffects.

Variables (e : env) (w : world) (brand title : string)
  (description tags : option string) (file : UploadFile.t).

Let stored_as := stored_name (name_oid e) (UploadFile.filename file).
Let storage_path := os_path_join (STORAGE_DIR w) stored_as.
Let content := UploadFile.stream file.

(** X2: An upload, however it ends, touches one path of the storage and at
    most appends one record: the storage directory, every other file and
    every record already stored stay as they were. *)
Theorem upload_touches_one_path (res : outcome upload_response) (w' : world) :
  upload_document e w brand title description tags file = Some (res, w') ->
  STORAGE_DIR w' = STORAGE_DIR w /\
  (forall p, p <> storage_path -> fs w' !! p = fs w !! p) /\
  (documents w' = documents w \/ exists d, documents w' = (documents w ++ [d])%list).
Proof.
  unfold upload_document. fold stored_as. fold storage_path. fold content.
  destruct (copy_loop (S (length content)) (write_fails_at e) 0 content [])
    as [[r out]|]; [|discriminate].
  unfold bind, open_wb, flush, getsize, raise, ret, create_document.
  destruct (open_fails e).
  { intros [= <- <-]. repeat split. now left. }
  cbn [fs documents STORAGE_DIR].
  assert (Hfs : forall p, p <> storage_path ->
            <[storage_path:=out]> (<[storage_path:=[]]> (fs w)) !! p = fs w !! p)
    by (intros p Hp; now rewrite !lookup_insert_ne by congruence).
  destruct r as [[]|c1 d1|ms|x]; try (intros [= <- <-]; cbn; repeat split; auto).
  rewrite lookup_insert_eq. unfold Schemas.validate. cbn [Schemas.size].
  destruct (0 <=? Z.of_nat (length out))%Z; [|intros [= <- <-]; cbn; repeat split; auto].
  destruct (insert_fails e); intros [= <- <-]; cbn; repeat split; eauto.
Qed.

(** X3: When the write numbered [k] raises, the upload ends in that error, no
    record is inserted, and the file is left on storage holding the chunks
    written before: the first [k] MiB of the content, not all of it. *)
Theorem failed_write_leaves_partial_blob (k : nat) :
  open_fails e = false ->
  write_fails_at e = Some k ->
  (N.of_nat k * CHUNK < N.of_nat (length content))%N ->
  exists w' pre rest,
    upload_document e w brand title description tags file = Some (Raised OSError, w') /\
    content = (pre ++ rest)%list /\ rest <> [] /\
    N.of_nat (length pre) = (N.of_nat k * CHUNK)%N /\
    fs w' !! storage_path = Some pre /\
    documents w' = documents w.
Proof.
  intros Ho Hk Hreach.
  unfold upload_document. fold stored_as. fold storage_path. fold content.
  destruct (copy_loop_spec (S (length content)) (write_fails_at e) 0 content [])
    as (res & out & Hrun & Hres); [lia|].
  rewrite Hrun. unfold bind, open_wb, flush. rewrite Ho.
  destruct Hres as [(-> & -> & Hb)|(-> & _ & _)].
  { specialize (Hb k Hk ltac:(lia)). lia. }
  rewrite Hk in Hrun.
  destruct (copy_loop_raised _ _ _ _ _ _ Hrun ltac:(lia)) as (pre & rest & Hc & Hne & -> & Hl).
  eexists _, pre, rest. split; [reflexivity|]. cbn [fs documents app].
  rewrite lookup_insert_eq, Nat.sub_0_r in *. now repeat split.
Qed.

(** X4: When the blob is written and the insert raises, the upload ends in
    that error with no record inserted, and the complete blob stays on
    storage: nothing removes it. *)
Theorem failed_insert_leaves_blob :
  ~ blob_write_fails e file ->
  insert_fails e = true ->
  exists w',
    upload_document e w brand title description tags file
      = Some (Raised PersistenceError, w') /\
    fs w' !! storage_path = Some content /\
    documents w' = documents w.
Proof.
  intros Hn Hi.
  destruct (upload_document_cases e w brand title description tags file)
    as (res & w' & Hrun & Hcase).
  fold stored_as in Hcase. fold storage_path in Hcase. fold content in Hcase.
  exists w'. unfold blob_write_fails in *.
  destruct Hcase as [(Ho & _)|[(_ & Hw & _)|[(_ & _ & -> & Hd & Hf)|(_ & Hi' & _)]]].
  - tauto.
  - tauto.
  - now repeat split.
  - congruence.
Qed.

(** X5: A successful upload answers with the text of the new record's
    identifier and "Uploaded", and the record it appends holds the form
    fields as given, the stored name, the client's file name as
    original_name, the declared content type and the parsed tags. *)
Theorem uploaded_record_fields (r : upload_response) (w' : world) :
  upload_document e w brand title description tags file = Some (Ok r, w') ->
  exists d,
    documents w' = (documents w ++ [d])%list /\
    id r = Bson.str (record_oid e) /\ message r = "Uploaded" /\
    d !! "_id" = Some (BObjectId (record_oid e)) /\
    d !! "brand" = Some (BStr brand) /\
    d !! "title" = Some (BStr title) /\
    d !! "description" = Some (Schemas.dump_str description) /\
    d !! "content_type" = Some (Schemas.dump_str (UploadFile.content_type file)) /\
    d !! "filename" = Some (BStr stored_as) /\
    d !! "original_name" = Some (BStr (UploadFile.filename file)) /\
    d !! "tags" = Some match parse_tags tags with
                       | Some ts => BArray ts
                       | None => BNull
                       end.
Proof.
  intros Hrun.
  destruct (upload_document_cases e w brand title description tags file)
    as (res & w1 & Hrun' & Hcase).
  rewrite Hrun in Hrun'. injection Hrun' as <- <-.
  destruct Hcase as [(_ & Hr & _)|[(_ & _ & Hr & _)|
    [(_ & _ & Hr & _)|(_ & _ & Hr & Hd & _)]]]; try discriminate.
  injection Hr as ->. eexists. split; [exact Hd|]. repeat split.
Qed.

(** X6: Upload and download compose: once an upload succeeded under a fresh
    identifier, downloading the identifier it returned yields the bytes
    uploaded, under the client's file name (the stored name when that is
    empty) and the declared content type (a generic binary type when none
    was declared). *)
Theorem download_after_upload (r : upload_response) (w' : world) :
  upload_document e w brand title description tags file = Some (Ok r, w') ->
  length (binary (record_oid e)) = 12 ->
  binary (name_oid e) <> [] ->
  Mongo.find_one (documents w) (record_oid e) = None ->
  exists resp,
    download_document w' (id r) = Ok resp /\
    FileResponse.body (fs w') resp = Some content /\
    FileResponse.filename resp =
      Some (if PyStr.truthy (Some (UploadFile.filename file))
            then UploadFile.filename file else stored_as) /\
    FileResponse.media_type resp =
      (if PyStr.truthy (UploadFile.content_type file)
       then default EmptyString (UploadFile.content_type file)
       else "application/octet-stream").
Proof.
  intros Hrun H12 Hname Hfresh.
  destruct (upload_document_cases e w brand title description tags file)
    as (res & w1 & Hrun' & Hcase).
  rewrite Hrun in Hrun'. injection Hrun' as <- <-.
  fold stored_as in Hcase. fold storage_path in Hcase. fold content in Hcase.
  destruct Hcase as [(_ & Hr & _)|[(_ & _ & Hr & _)|
    [(_ & _ & Hr & _)|(_ & _ & Hr & Hd & Hf)]]]; try discriminate.
  injection Hr as ->. cbn [id].
  unfold download_document.
  rewrite (parse_str _ H12), Hd.
  rewrite (find_one_snoc _ _ _ Hfresh) by reflexivity.
  rewrite bool_decide_eq_false_2
    by (intros Hempty; apply (f_equal (fun m => m !! "_id")) in Hempty; discriminate).
  change (Py.get _ "path") with (BStr storage_path).
  change (Py.get _ "original_name") with (BStr (UploadFile.filename file)).
  change (Py.get _ "filename") with (BStr stored_as).
  change (Py.get _ "content_type")
    with (Schemas.dump_str (UploadFile.content_type file)).
  assert (Hp : PyStr.truthy (Some storage_path) = true).
  { pose proof (os_path_join_nonempty (STORAGE_DIR w) stored_as
                  (stored_name_nonempty _ _ Hname)) as Hne.
    fold storage_path in Hne. destruct storage_path; [congruence|reflexivity]. }
  cbn [Py.truthy os_path_exists]. rewrite Hp. cbn [negb].
  rewrite Hf. rewrite bool_decide_eq_true_2 by eauto.
  unfold Py.or. cbn [Py.truthy].
  destruct (PyStr.truthy (Some (UploadFile.filename file)));
    destruct (UploadFile.content_type file) as [[|c m]|];
    cbn [Schemas.dump_str Py.truthy PyStr.truthy file_response];
    eexists; (split; [reflexivity|]); unfold FileResponse.body; cbn; now rewrite Hf.
Qed.

End UploadEffects.

(** * The route of the upload *)



(** * Search: the items *)

Lemma project_all_cons d ds item items :
  project d = Ok item -> project_all ds = Ok items ->
  project_all (d :: ds) = Ok (item :: items).
Proof. intros H1 H2. cbn [project_all]. now rewrite H1, H2. Qed.

(** X8: The documents found become the items one for one and in order when
    each of them has its "_id"; a single document without it makes the
    whole listing fail with [KeyError]. *)
Theorem items_need_ids (ds : list (gmap string value)) :
  (Forall (fun d => is_Some (d !! "_id")) ds ->
     exists items, project_all ds = Ok items /\
       Forall2 (fun d item => project d = Ok item) ds items) /\
  (Exists (fun d => d !! "_id" = None) ds -> project_all ds = Raised KeyError).
Proof.
  split.
  - induction 1 as [|d ds [v Hv] _ (items & Hp & Hall)].
    + exists []. split; [reflexivity|constructor].
    + assert (Hd : project d = Ok (delete "path" (<["id":=BStr (Py.str v)]> (delete "_id" d))))
        by (unfold project; now rewrite Hv).
      eexists. split; [apply (project_all_cons _ _ _ _ Hd Hp)|].
      constructor; assumption.
  - induction ds as [|d ds IH]; intros H; [inversion H|].
    cbn [project_all]. unfold project at 1.
    destruct (d !! "_id") as [v|] eqn:Ev; [|reflexivity].
    inversion H as [? ? Hd|? ? Hrest]; subst; [congruence|].
    now rewrite (IH Hrest).
Qed.

Lemma items_need_ids_witness :
  project_all [stored sample_oid manual_a; Schemas.model_dump manual_b] = Raised KeyError.
Proof.
  apply (proj2 (items_need_ids [stored sample_oid manual_a; Schemas.model_dump manual_b])).
  right. left. reflexivity.
Defined.

(** * Search: how the constraints compose *)

(** X9: Each parameter of a search only narrows it, whatever the term is, a
    plain text or a pattern, and however the engine reads patterns: a
    document that matches with a brand and a term also matches with the
    brand alone and with the term alone. *)
Theorem constraints_only_narrow (E : Regex.engine) (q brand : option string)
    (d : gmap string value) :
  Mongo.matches E (filter_query q brand) d = Some true ->
  Mongo.matches E (filter_query None brand) d = Some true /\
  Mongo.matches E (filter_query q None) d = Some true.
Proof.
  rewrite filter_query_split, matches_app.
  destruct (Mongo.matches E (filter_query None brand) d) as [[|]|],
    (Mongo.matches E (filter_query q None) d) as [[|]|]; cbn; intros H;
    try discriminate; now split.
Qed.

Lemma constraints_only_narrow_witness :
  Mongo.matches sample_engine (filter_query None (Some "Otis")) (stored sample_oid manual_a)
  = Some true /\
  Mongo.matches sample_engine (filter_query (Some "^M") None) (stored sample_oid manual_a)
  = Some true.
Proof.
  apply (constraints_only_narrow sample_engine (Some "^M") (Some "Otis")). reflexivity.
Defined.

Lemma match_here_casefold t : forall t' s,
  casefold t = casefold t' ->
  Regex.match_here true (literal t) s = Regex.match_here true (literal t') s.
Proof.
  induction t as [|c t IH]; intros [|c' t'] s H; cbn [casefold] in H; try discriminate;
    [reflexivity|].
  injection H as Hc Ht. cbn [literal Regex.match_here]. destruct s as [|x s]; [reflexivity|].
  cbn [Regex.atom_matches]. now rewrite Hc, (IH t' s Ht).
Qed.

Lemma search_casefold t t' s :
  casefold t = casefold t' ->
  Regex.search true (literal t) s = Regex.search true (literal t') s.
Proof.
  intros H. induction s as [|x s IH]; cbn [Regex.search];
    rewrite (match_here_casefold t t' _ H); [reflexivity|now rewrite IH].
Qed.

Lemma regex_on_casefold E t t' subjects :
  plain t = true -> plain t' = true -> casefold t = casefold t' ->
  Mongo.regex_on E t "i" subjects = Mongo.regex_on E t' "i" subjects.
Proof.
  intros Hp Hp' H. rewrite !regex_on_plain by assumption. f_equal.
  induction subjects as [|s ss IH]; cbn [existsb]; [reflexivity|].
  now rewrite (search_casefold t t' s H), IH.
Qed.

Lemma find_ext E coll f g :
  (forall d, Mongo.matches E f d = Mongo.matches E g d) ->
  Mongo.find E coll f = Mongo.find E coll g.
Proof.
  intros H. unfold Mongo.find. rewrite H. destruct (Mongo.matches E g ∅); [|reflexivity].
  induction coll as [|d coll IH]; cbn [Mongo.scan]; [reflexivity|].
  now rewrite H, IH.
Qed.

(** X10: The letter case of a term without pattern characters does not
    matter: two such terms that differ only in case select the same
    documents and give the same listing, however the engine reads
    patterns. *)
Theorem search_ignores_case (E : Regex.engine) (w : world) (t t' : string)
    (brand : option string) (limit : Z) :
  plain t = true -> plain t' = true -> casefold t = casefold t' ->
  (forall d, Mongo.matches E (filter_query (Some t) brand) d
             = Mongo.matches E (filter_query (Some t') brand) d) /\
  list_documents E w (Some t) brand limit = list_documents E w (Some t') brand limit.
Proof.
  intros Hp Hp' H.
  assert (Hm : forall d, Mongo.matches E (filter_query (Some t) brand) d
                         = Mongo.matches E (filter_query (Some t') brand) d).
  { intros d. rewrite (filter_query_split (Some t)), (filter_query_split (Some t')).
    rewrite !matches_app. destruct (Mongo.matches E (filter_query None brand) d); [|reflexivity].
    f_equal. unfold filter_query. cbn [app].
    destruct t as [|c t], t' as [|c' t']; try discriminate; [reflexivity|].
    cbn [PyStr.truthy Mongo.matches Mongo.clause_holds Mongo.any_holds Mongo.cond_holds].
    now rewrite !(regex_on_casefold E _ _ _ Hp Hp' H). }
  split; [exact Hm|].
  unfold list_documents, get_documents. now rewrite (find_ext E _ _ _ Hm).
Qed.

Lemma search_ignores_case_witness :
  list_documents sample_engine sample_world (Some "manual") None 100
  = list_documents sample_engine sample_world (Some "MANUAL") None 100.
Proof.
  apply (search_ignores_case sample_engine sample_world "manual" "MANUAL" None 100);
    reflexivity.
Defined.

(** * Download and view: what is served *)

(** X11: A record whose path names an existing file is served by download and
    by view alike: the bytes are those of the file at that very path,
    wherever it lies; the file name is the record's original_name, or its
    filename when the former is missing or empty; the content type is the
    record's content_type, or a generic binary type when that is missing
    or empty; and the disposition type is "attachment". *)
Theorem record_is_served (w : world) (doc_id : string) (oid : ObjectId)
    (doc : gmap string value) (p : string) (blob : list byte) :
  Bson.parse doc_id = Some oid ->
  Mongo.find_one (documents w) oid = Some doc ->
  doc !! "path" = Some (BStr p) -> p <> EmptyString -> fs w !! p = Some blob ->
  text_or_null doc "original_name" -> text_or_null doc "filename" ->
  text_or_null doc "content_type" ->
  exists resp,
    download_document w doc_id = Ok resp /\
    view_document w doc_id = Ok resp /\
    FileResponse.path resp = p /\
    FileResponse.body (fs w) resp = Some blob /\
    FileResponse.filename resp =
      match text doc "original_name" with
      | Some (String c s) => Some (String c s)
      | _ => text doc "filename"
      end /\
    FileResponse.media_type resp =
      match text doc "content_type" with
      | Some (String c s) => String c s
      | _ => "application/octet-stream"
      end /\
    FileResponse.content_disposition_type resp = "attachment".
Proof.
  intros Hparse Hfind Hpath Hp Hfs Ho Hf Hc.
  unfold view_document, download_document. rewrite Hparse, Hfind.
  pose proof (find_one_id _ _ _ Hfind) as Hid.
  rewrite bool_decide_eq_false_2
    by (intros ->; rewrite lookup_empty in Hid; discriminate).
  unfold Py.get, text, text_or_null in *. rewrite Hpath.
  cbn [Py.truthy os_path_exists].
  destruct p as [|c0 p]; [congruence|]. cbn [PyStr.truthy negb].
  rewrite Hfs, bool_decide_eq_true_2 by eauto.
  unfold FileResponse.body.
  destruct (doc !! "original_name") as [[|[|co so]| | |]|];
    destruct (doc !! "filename") as [[|[|cf sf]| | |]|];
    destruct (doc !! "content_type") as [[|[|cc sc]| | |]|];
    try contradiction;
    eexists; repeat split; cbn; exact Hfs.
Qed.

Lemma record_is_served_witness :
  exists resp,
    download_document sample_world "650A1B2C3D4E5F60718293A4" = Ok resp /\
    view_document sample_world "650A1B2C3D4E5F60718293A4" = Ok resp /\
    FileResponse.path resp = "storage/650a.pdf" /\
    FileResponse.body (fs sample_world) resp = Some [Byte.x61; Byte.x62; Byte.x63] /\
    FileResponse.filename resp =
      match text (stored sample_oid manual_a) "original_name" with
      | Some (String c s) => Some (String c s)
      | _ => text (stored sample_oid manual_a) "filename"
      end /\
    FileResponse.media_type resp =
      match text (stored sample_oid manual_a) "content_type" with
      | Some (String c s) => String c s
      | _ => "application/octet-stream"
      end /\
    FileResponse.content_disposition_type resp = "attachment".
Proof.
  apply (record_is_served sample_world "650A1B2C3D4E5F60718293A4" sample_oid
           (stored sample_oid manual_a) "storage/650a.pdf");
    try reflexivity; try exact I. discriminate.
Defined.

(** X12: Whatever the world and the identifier, a response of the view
    operation has the disposition type "attachment": when it carries a
    disposition at all, it is never "inline". *)
Theorem view_never_inline (w : world) (doc_id : string) (resp : FileResponse.t) :
  view_document w doc_id = Ok resp ->
  FileResponse.content_disposition_type resp = "attachment" /\
  FileResponse.disposition resp <> Some "inline".
Proof.
  unfold view_document. intros H.
  assert (Hresp : exists a b c, file_response a b c = Ok resp).
  { destruct (Bson.parse doc_id); [|discriminate].
    destruct (Mongo.find_one (documents w) o) as [doc|]; [|discriminate].
    destruct (bool_decide (doc = ∅)); [discriminate|].
    destruct (negb (Py.truthy (Py.get doc "path"))); [discriminate|].
    destruct (os_path_exists (fs w) (Py.get doc "path")) as [[|]| | |]; try discriminate.
    eauto. }
  destruct Hresp as (a & b & c & Hr). unfold file_response in Hr.
  destruct a, b, c; try discriminate; injection Hr as <-;
    (split; [reflexivity|]); cbn; discriminate.
Qed.

Lemma view_never_inline_witness :
  FileResponse.content_disposition_type
    (FileResponse.make "storage/650a.pdf" (Some "m.pdf") "application/pdf") = "attachment" /\
  FileResponse.disposition
    (FileResponse.make "storage/650a.pdf" (Some "m.pdf") "application/pdf") <> Some "inline".
Proof.
  apply (view_never_inline sample_world "650a1b2c3d4e5f60718293a4"). reflexivity.
Defined.

(** * Identifiers in the path *)

Lemma fromhex_foreign_aux s :
  (PyStr.all (fun c => is_hex c || Bson.c_isspace c) s = false -> Bson.fromhex s = None) /\
  (forall c, PyStr.all (fun c => is_hex c || Bson.c_isspace c) (String c s) = false ->
             Bson.fromhex (String c s) = None).
Proof.
  induction s as [|d s [IH1 IH2]].
  - split; [discriminate|]. intros c H. cbn [PyStr.all] in H. cbn [Bson.fromhex].
    destruct (Bson.c_isspace c); [rewrite orb_true_r in H; discriminate|reflexivity].
  - assert (Hd : PyStr.all (fun c => is_hex c || Bson.c_isspace c) (String d s) = false ->
                 Bson.fromhex (String d s) = None) by apply IH2.
    split; [exact Hd|]. intros c H.
    cbn [Bson.fromhex]. destruct (Bson.c_isspace c) eqn:Ec.
    + apply Hd. cbn [PyStr.all] in H |- *. rewrite Ec, orb_true_r in H. exact H.
    + unfold is_hex in H. cbn [PyStr.all] in H.
      destruct (Bson.hexval c); [|reflexivity].
      destruct (Bson.hexval d); [|reflexivity].
      cbn in H. now rewrite (IH1 H).
Qed.

Lemma fromhex_digits : forall n s,
  String.length s = 2 * n -> PyStr.all is_hex s = true ->
  exists bs, Bson.fromhex s = Some bs /\ length bs = n.
Proof.
  induction n as [|n IH]; intros s Hl Hh.
  - destruct s; [|discriminate]. now exists [].
  - destruct s as [|c [|d s]]; try (simpl in Hl; lia).
    cbn [PyStr.all] in Hh. apply andb_true_iff in Hh as [Hc Hh].
    apply andb_true_iff in Hh as [Hd Hh].
    destruct (IH s) as (bs & Hbs & Hn); [simpl in Hl; lia|assumption|].
    cbn [Bson.fromhex]. unfold is_hex in Hc, Hd.
    assert (Bson.c_isspace c = false) as ->.
    { unfold Bson.c_isspace, Bson.hexval in *.
      destruct ((9 <=? N_of_ascii c) && (N_of_ascii c <=? 13) || (N_of_ascii c =? 32))%N eqn:E;
        [|reflexivity].
      exfalso. revert Hc E. generalize (N_of_ascii c). intros m.
      repeat match goal with
             | |- context [(?a <=? ?b)%N] => destruct (N.leb_spec a b)
             | |- context [(?a =? ?b)%N] => destruct (N.eqb_spec a b)
             end; cbn; intros; try discriminate; lia. }
    destruct (Bson.hexval c); [|discriminate].
    destruct (Bson.hexval d); [|discriminate].
    rewrite Hbs. eexists. split; [reflexivity|]. simpl. now rewrite Hn.
Qed.

(** X13: The syntax of an identifier: 24 hexadecimal digits of either case are
    well formed and name twelve bytes; a text with a character that is
    neither a hexadecimal digit nor white space is not, and both download
    and view answer it with 400. *)
Theorem identifier_syntax (w : world) (doc_id : string) :
  (String.length doc_id = 24 -> PyStr.all is_hex doc_id = true ->
     exists oid, Bson.parse doc_id = Some oid /\ length (binary oid) = 12) /\
  (PyStr.all (fun c => is_hex c || Bson.c_isspace c) doc_id = false ->
     download_document w doc_id = HTTPException 400 "Invalid document id" /\
     view_document w doc_id = HTTPException 400 "Invalid document id").
Proof.
  split.
  - intros Hl Hh. destruct (fromhex_digits 12 doc_id Hl Hh) as (bs & Hbs & Hn).
    exists (mkObjectId bs). unfold Bson.parse. rewrite Hl, Hbs. now split.
  - intros H. unfold view_document, download_document, Bson.parse.
    rewrite (proj1 (fromhex_foreign_aux doc_id) H).
    destruct (String.length doc_id =? 24)%nat; now split.
Qed.

Lemma identifier_syntax_witness :
  download_document sample_world "650a1b2c3d4e5f60718293zz"
    = HTTPException 400 "Invalid document id" /\
  view_document sample_world "650a1b2c3d4e5f60718293zz"
    = HTTPException 400 "Invalid document id".
Proof.
  apply (proj2 (identifier_syntax sample_world "650a1b2c3d4e5f60718293zz")). reflexivity.
Defined.

(** * Tags and stored names, once more *)

Lemma split_app_sep sep x s :
  PyStr.contains sep x = false ->
  PyStr.split sep (x +:+ String sep s) = x :: PyStr.split sep s.
Proof.
  induction x as [|c x IH]; simpl.
  - intros _. now rewrite Ascii.eqb_refl.
  - intros H. apply orb_false_iff in H as [Hc Hx]. now rewrite Hc, (IH Hx).
Qed.

Lemma split_join ts :
  ts <> [] -> Forall (fun t => PyStr.contains "," t = false) ts ->
  PyStr.split "," (PyStr.join "," ts) = ts.
Proof.
  induction ts as [|x ts IH]; [congruence|]. intros _ H.
  inversion H as [|? ? Hx Hts]; subst.
  destruct ts as [|y ts].
  - now apply split_no_sep.
  - change (PyStr.join "," (x :: y :: ts))
      with (x +:+ String "," (PyStr.join "," (y :: ts))).
    rewrite (split_app_sep "," x _ Hx). f_equal. now apply IH.
Qed.

Lemma strip_of_trimmed t : trimmed t -> PyStr.strip t = t.
Proof. intros [Hl Hr]. unfold PyStr.strip. now rewrite Hl, Hr. Qed.

(** X14: Tags survive the form: trimmed tags without commas, joined with
    commas into a non-empty field, are parsed back as the same tags in
    the same order. *)
Theorem tags_roundtrip (ts : list string) :
  Forall (fun t => trimmed t /\ PyStr.contains "," t = false) ts ->
  PyStr.join "," ts <> EmptyString ->
  parse_tags (Some (PyStr.join "," ts)) = Some ts.
Proof.
  intros H Hne.
  assert (Hts : ts <> []) by (intros ->; now apply Hne).
  unfold parse_tags.
  destruct (PyStr.join "," ts) as [|c raw] eqn:Ej; [congruence|].
  cbn [PyStr.truthy]. rewrite <- Ej. f_equal.
  rewrite split_join; [|assumption|eapply Forall_impl; [exact H|]; now intros ? []].
  clear Ej Hne Hts. induction H as [|t ts [Ht _] _ IH]; cbn [map]; [reflexivity|].
  now rewrite (strip_of_trimmed t Ht), IH.
Qed.

Lemma tags_roundtrip_witness :
  parse_tags (Some (PyStr.join "," ["lift"; "door drive"; EmptyString]))
  = Some ["lift"; "door drive"; EmptyString].
Proof.
  apply (tags_roundtrip ["lift"; "door drive"; EmptyString]); [|discriminate].
  repeat constructor.
Defined.

Lemma last_split_app sep pre ext :
  PyStr.contains sep ext = false ->
  PyStr.last_piece (PyStr.split sep (pre +:+ String sep ext)) = ext.
Proof.
  intros He. induction pre as [|c pre IH]; simpl.
  - rewrite Ascii.eqb_refl, (split_no_sep sep ext He). reflexivity.
  - pose proof (split_length sep (pre +:+ String sep ext)) as Hl.
    rewrite count_app in Hl. simpl in Hl. rewrite Ascii.eqb_refl in Hl.
    destruct (Ascii.eqb c sep).
    + rewrite last_cons_nonempty; [exact IH|apply split_nonempty].
    + destruct (PyStr.split sep (pre +:+ String sep ext)) as [|h [|h' t]];
        [discriminate|simpl in Hl; lia|exact IH].
Qed.

Lemma contains_app_sep sep pre ext : PyStr.contains sep (pre +:+ String sep ext) = true.
Proof.
  induction pre as [|c pre IH]; simpl.
  - now rewrite Ascii.eqb_refl.
  - rewrite IH. apply orb_true_r.
Qed.

(** X15: The extension is taken as it is: whatever follows the last dot of the
    client's file name, path separators included, ends the stored name. *)
Theorem extension_kept_verbatim (oid : ObjectId) (pre ext : string) :
  PyStr.contains "." ext = false ->
  stored_name oid (pre +:+ "." +:+ ext) = Bson.str oid +:+ "." +:+ ext.
Proof.
  intros He. unfold stored_name.
  change ("." +:+ ext) with (String "." ext).
  now rewrite contains_app_sep, (last_split_app "." pre ext He).
Qed.

Lemma extension_kept_verbatim_witness :
  stored_name sample_oid ("report" +:+ "." +:+ "d/e")
  = Bson.str sample_oid +:+ "." +:+ "d/e".
Proof. apply (extension_kept_verbatim sample_oid "report" "d/e"). reflexivity. Defined.

Lemma stored_name_dots oid filename : PyStr.count "." (stored_name oid filename) <= 1.
Proof.
  unfold stored_name. destruct (PyStr.contains "." filename).
  - rewrite !count_app, str_no_dot.
    pose proof (last_piece_no_sep "." filename) as Hn. rewrite count_contains in Hn.
    destruct (PyStr.count "." (PyStr.last_piece (PyStr.split "." filename)));
      [simpl; lia|discriminate].
  - rewrite str_no_dot. lia.
Qed.

Lemma hex_of_byte_first b s :
  exists c r, Bson.hex_of_byte b +:+ s = String c r /\ c <> "/"%char.
Proof. destruct b; do 2 eexists; (split; [reflexivity|discriminate]). Qed.

Lemma os_path_join_relative a c r :
  c <> "/"%char ->
  os_path_join a (String c r) =
  match a with
  | EmptyString => String c r
  | String _ _ =>
      if String.eqb (PyStr.last_piece (PyStr.split "/" a)) EmptyString
      then a +:+ String c r else a +:+ "/" +:+ String c r
  end.
Proof.
  intros Hc. unfold os_path_join.
  destruct c as [[] [] [] [] [] [] [] []]; try reflexivity. congruence.
Qed.

Lemma last_piece_other sep pre c :
  c <> sep ->
  PyStr.last_piece (PyStr.split sep (pre +:+ String c EmptyString)) <> EmptyString.
Proof.
  intros Hc. induction pre as [|x pre IH]; simpl.
  - destruct (Ascii.eqb_spec c sep) as [->|_]; [congruence|]. simpl. discriminate.
  - destruct (Ascii.eqb x sep).
    + rewrite last_cons_nonempty; [exact IH|apply split_nonempty].
    + destruct (PyStr.split sep (pre +:+ String c EmptyString)) as [|h [|h' t]];
        unfold PyStr.last_piece in *; simpl in *; congruence.
Qed.

Lemma stored_name_first oid filename :
  binary oid <> [] ->
  exists c r, stored_name oid filename = String c r /\ c <> "/"%char.
Proof.
  intros H. destruct oid as [[|b bs]]; cbn [binary] in H; [congruence|].
  unfold stored_name, Bson.str. cbn [binary fold_right].
  set (rest := fold_right _ _ bs).
  destruct (hex_of_byte_first b rest) as (c & r & Hs & Hc). rewrite Hs.
  destruct (PyStr.contains "." filename); cbn [String.append]; eauto.
Qed.

(** X16: The storage path stays under the storage directory. With an empty
    directory the path is the stored name; with a directory that ends in
    a separator it is the directory followed by the stored name; with a
    directory that ends in any other character it is the directory, one
    separator and the stored name. The stored name starts with the
    identifier and never holds two dots in a row, so no component of it
    steps to a parent directory. *)
Theorem storage_path_under_directory (dir : string) (oid : ObjectId) (filename : string) :
  binary oid <> [] ->
  (dir = EmptyString ->
     os_path_join dir (stored_name oid filename) = stored_name oid filename) /\
  (forall pre, dir = pre +:+ "/" ->
     os_path_join dir (stored_name oid filename) = dir +:+ stored_name oid filename) /\
  (forall pre c, dir = pre +:+ String c EmptyString -> c <> "/"%char ->
     os_path_join dir (stored_name oid filename)
     = dir +:+ "/" +:+ stored_name oid filename) /\
  (exists sep, (sep = EmptyString \/ sep = "/") /\
     os_path_join dir (stored_name oid filename) = dir +:+ sep +:+ stored_name oid filename) /\
  (exists rest, stored_name oid filename = Bson.str oid +:+ rest) /\
  (forall pre post, stored_name oid filename <> pre +:+ ".." +:+ post).
Proof.
  intros H.
  destruct (stored_name_first oid filename H) as (c & r & Hn & Hc).
  assert (Hslash : forall pre, dir = pre +:+ "/" ->
            os_path_join dir (stored_name oid filename) = dir +:+ stored_name oid filename).
  { intros pre ->. rewrite Hn, (os_path_join_relative _ c r Hc).
    rewrite (last_split_app "/" pre EmptyString eq_refl).
    destruct pre; reflexivity. }
  assert (Hother : forall pre x, dir = pre +:+ String x EmptyString -> x <> "/"%char ->
            os_path_join dir (stored_name oid filename)
            = dir +:+ "/" +:+ stored_name oid filename).
  { intros pre x -> Hx. rewrite Hn, (os_path_join_relative _ c r Hc).
    pose proof (last_piece_other "/" pre x Hx) as Hl.
    destruct (String.eqb_spec
                (PyStr.last_piece (PyStr.split "/" (pre +:+ String x EmptyString)))
                EmptyString) as [He|_]; [contradiction|].
    destruct pre; reflexivity. }
  split; [|split; [|split; [|split; [|split]]]].
  - intros ->. rewrite Hn. now rewrite (os_path_join_relative _ c r Hc).
  - exact Hslash.
  - exact Hother.
  - assert (Hend : dir = EmptyString \/ (exists pre, dir = pre +:+ "/") \/
                   exists pre x, dir = pre +:+ String x EmptyString /\ x <> "/"%char).
    { clear. induction dir as [|y dir IH]; [now left|]. right.
      destruct IH as [->|[(pre & ->)|(pre & x & -> & Hx)]].
      - destruct (Ascii.eqb_spec y "/") as [->|Hy].
        + left. now exists EmptyString.
        + right. exists EmptyString, y. now split.
      - left. now exists (String y pre).
      - right. exists (String y pre), x. now split. }
    destruct Hend as [->|[(pre & Hd)|(pre & x & Hd & Hx)]].
    + exists EmptyString. split; [now left|]. rewrite Hn.
      now rewrite (os_path_join_relative _ c r Hc).
    + exists EmptyString. split; [now left|]. exact (Hslash pre Hd).
    + exists "/". split; [now right|]. exact (Hother pre x Hd Hx).
  - unfold stored_name. destruct (PyStr.contains "." filename).
    + eexists. reflexivity.
    + exists EmptyString. clear. induction (Bson.str oid) as [|y t IH]; [reflexivity|].
      exact (f_equal (String y) IH).
  - intros pre post Heq. pose proof (stored_name_dots oid filename) as Hd.
    rewrite Heq, !count_app in Hd. simpl in Hd. lia.
Qed.

Lemma storage_path_under_directory_witness :
  os_path_join "storage" (stored_name sample_oid "../../etc/passwd")
  = "storage" +:+ "/" +:+ stored_name sample_oid "../../etc/passwd".
Proof.
  apply (proj1 (proj2 (proj2 (storage_path_under_directory "storage" sample_oid
                                "../../etc/passwd" ltac:(discriminate))))
           "storag" "e"%char eq_refl).
  discriminate.
Defined.

(** * Upload: instances *)

Lemma upload_touches_one_path_witness :
  exists res w',
    upload_document fresh_env sample_world "Otis" "Plan" None None sample_file
      = Some (res, w') /\
    STORAGE_DIR w' = STORAGE_DIR sample_world /\
    (forall p,
       p <> os_path_join (STORAGE_DIR sample_world)
              (stored_name (name_oid fresh_env) (UploadFile.filename sample_file)) ->
       fs w' !! p = fs sample_world !! p) /\
    (documents w' = documents sample_world \/
     exists d, documents w' = (documents sample_world ++ [d])%list).
Proof.
  do 2 eexists. split; [reflexivity|].
  eapply (upload_touches_one_path fresh_env sample_world "Otis" "Plan" None None sample_file).
  reflexivity.
Defined.

Lemma failed_write_leaves_partial_blob_witness :
  exists w' pre rest,
    upload_document (mkEnv sample_oid fresh_oid false (Some 0) false) sample_world
      "Otis" "Plan" None None sample_file = Some (Raised OSError, w') /\
    UploadFile.stream sample_file = (pre ++ rest)%list /\ rest <> [] /\
    N.of_nat (length pre) = (N.of_nat 0 * CHUNK)%N /\
    fs w' !! os_path_join (STORAGE_DIR sample_world)
               (stored_name sample_oid (UploadFile.filename sample_file)) = Some pre /\
    documents w' = documents sample_world.
Proof.
  apply (failed_write_leaves_partial_blob
           (mkEnv sample_oid fresh_oid false (Some 0) false) sample_world
           "Otis" "Plan" None None sample_file 0); reflexivity.
Defined.

Lemma failed_insert_leaves_blob_witness :
  exists w',
    upload_document (mkEnv sample_oid fresh_oid false None true) sample_world
      "Otis" "Plan" None None sample_file = Some (Raised PersistenceError, w') /\
    fs w' !! os_path_join (STORAGE_DIR sample_world)
               (stored_name sample_oid (UploadFile.filename sample_file))
      = Some (UploadFile.stream sample_file) /\
    documents w' = documents sample_world.
Proof.
  apply (failed_insert_leaves_blob
           (mkEnv sample_oid fresh_oid false None true) sample_world
           "Otis" "Plan" None None sample_file); [|reflexivity].
  intros [H|(k & H & _)]; discriminate.
Defined.

Lemma uploaded_record_fields_witness :
  exists r w',
    upload_document fresh_env sample_world "Otis" "Plan" None (Some "a, b") sample_file
      = Some (Ok r, w') /\
    exists d,
      documents w' = (documents sample_world ++ [d])%list /\
      id r = Bson.str (record_oid fresh_env) /\ message r = "Uploaded" /\
      d !! "_id" = Some (BObjectId (record_oid fresh_env)) /\
      d !! "brand" = Some (BStr "Otis") /\
      d !! "title" = Some (BStr "Plan") /\
      d !! "description" = Some (Schemas.dump_str None) /\
      d !! "content_type" = Some (Schemas.dump_str (UploadFile.content_type sample_file)) /\
      d !! "filename"
        = Some (BStr (stored_name (name_oid fresh_env) (UploadFile.filename sample_file))) /\
      d !! "original_name" = Some (BStr (UploadFile.filename sample_file)) /\
      d !! "tags" = Some match parse_tags (Some "a, b") with
                         | Some ts => BArray ts
                         | None => BNull
                         end.
Proof.
  do 2 eexists. split; [reflexivity|].
  eapply (uploaded_record_fields fresh_env sample_world "Otis" "Plan" None (Some "a, b")
            sample_file).
  reflexivity.
Defined.

Lemma download_after_upload_witness :
  exists r w',
    upload_document fresh_env sample_world "Otis" "Plan" None None sample_file
      = Some (Ok r, w') /\
    exists resp,
      download_document w' (id r) = Ok resp /\
      FileResponse.body (fs w') resp = Some (UploadFile.stream sample_file) /\
      FileResponse.filename resp =
        Some (if PyStr.truthy (Some (UploadFile.filename sample_file))
              then UploadFile.filename sample_file
              else stored_name (name_oid fresh_env) (UploadFile.filename sample_file)) /\
      FileResponse.media_type resp =
        (if PyStr.truthy (UploadFile.content_type sample_file)
         then default EmptyString (UploadFile.content_type sample_file)
         else "application/octet-stream").
Proof.
  do 2 eexists. split; [reflexivity|].
  eapply (download_after_upload fresh_env sample_world "Otis" "Plan" None None sample_file);
    [reflexivity|reflexivity|discriminate|reflexivity].
Defined.

(** * Search, then download *)

Lemma find_one_in coll oid d :
  In d coll -> d !! "_id" = Some (BObjectId oid) ->
  exists doc, Mongo.find_one coll oid = Some doc.
Proof.
  unfold Mongo.find_one. intros Hin Hd.
  destruct (find _ coll) as [doc|] eqn:Ef; [eauto|].
  pose proof (find_none _ _ Ef d Hin) as Hn. cbn in Hn.
  rewrite bool_decide_eq_true_2 in Hn by assumption. discriminate.
Qed.

(** X17: The identifiers that a search lists can be used as they are,
    whatever the term is and however the engine reads patterns: when the
    records carry generated identifiers (twelve bytes), the id of every
    item is a well-formed identifier under which download and view find a
    record. *)
Theorem listed_ids_resolve (E : Regex.engine) (w : world) (q brand : option string)
    (limit : Z) (items : list (gmap string value)) (item : gmap string value) :
  (forall d, In d (documents w) ->
     exists oid, d !! "_id" = Some (BObjectId oid) /\ length (binary oid) = 12) ->
  list_documents E w q brand limit = Some (Ok items) ->
  In item items ->
  exists s oid doc,
    item !! "id" = Some (BStr s) /\
    Bson.parse s = Some oid /\
    Mongo.find_one (documents w) oid = Some doc /\
    doc !! "_id" = Some (BObjectId oid).
Proof.
  unfold list_documents, get_documents. intros Hids H Hin.
  destruct (Mongo.find E (documents w) (filter_query q brand)) as [ds|] eqn:Ef;
    [|discriminate].
  injection H as H.
  destruct (project_all_in _ _ H item Hin) as (d & Hd & Hp).
  apply in_take in Hd. apply (find_subset _ _ _ _ Ef) in Hd.
  destruct (Hids d Hd) as (oid & Hoid & H12).
  unfold project in Hp. rewrite Hoid in Hp. injection Hp as <-.
  destruct (find_one_in _ _ _ Hd Hoid) as (doc & Hdoc).
  exists (Bson.str oid), oid, doc. repeat split.
  - rewrite lookup_delete_ne by discriminate. apply lookup_insert_eq.
  - apply parse_str, H12.
  - exact Hdoc.
  - eapply find_one_id, Hdoc.
Qed.

Lemma listed_ids_resolve_witness :
  exists items item,
    list_documents sample_engine sample_world (Some "^Manual B") (Some "KONE") 100
      = Some (Ok items) /\
    In item items /\
    exists s oid doc,
      item !! "id" = Some (BStr s) /\
      Bson.parse s = Some oid /\
      Mongo.find_one (documents sample_world) oid = Some doc /\
      doc !! "_id" = Some (BObjectId oid).
Proof.
  do 2 eexists. split; [reflexivity|]. split; [left; reflexivity|].
  eapply (listed_ids_resolve sample_engine sample_world (Some "^Manual B") (Some "KONE") 100);
    [|reflexivity|left; reflexivity].
  intros d [<-|[<-|[]]]; eexists; split; reflexivity.
Defined.

(** * The status endpoint *)

Section Status.

Import Health.
Local Open Scope list_scope.

Variables (i : imported) (env : environ).

(** X18: The two configuration lines of the status report come from the
    environment alone: each reads "Set" when its variable is set and not
    empty and "Not Set" otherwise, whatever the database probe wrote
    there before; neither is ever left null. *)
Theorem status_reads_environment :
  database_url (test_database i env)
    = Some (if truthy (DATABASE_URL env)
            then check_mark ++ codes " Set" else cross_mark ++ codes " Not Set") /\
  database_name (test_database i env)
    = Some (if truthy (DATABASE_NAME env)
            then check_mark ++ codes " Set" else cross_mark ++ codes " Not Set") /\
  (DATABASE_URL env = Some [] ->
     database_url (test_database i env) = Some (cross_mark ++ codes " Not Set")).
Proof.
  unfold test_database, probe.
  destruct i as [| |[[n [names|e]]|]]; cbn; repeat split; now intros ->.
Qed.

(** X19: The report lists at most ten collections, the first ones the database
    names, and the database line reads "Connected & Working" exactly when
    the listing succeeded; without a successful listing the list is
    empty. *)
Theorem status_lists_ten_collections :
  length (collections (test_database i env)) <= 10 /\
  (forall db names, i = Db (Some db) -> list_collection_names db = Names names ->
     collections (test_database i env) = take 10 names) /\
  (database (test_database i env) = check_mark ++ codes " Connected & Working" <->
   exists db names, i = Db (Some db) /\ list_collection_names db = Names names) /\
  ((forall db names, i = Db (Some db) -> list_collection_names db <> Names names) ->
   collections (test_database i env) = []).
Proof.
  unfold test_database, probe.
  destruct i as [| |[[n [names|e]]|]]; cbn [name list_collection_names];
    cbn [collections database set_database set_database_url set_database_name
         set_connection_status set_collections initial].
  all: repeat split;
    try (intros ? ? [= <-] [= <-]; reflexivity);
    try (intros ? ? [= <-] ?; discriminate);
    try (intros ? ? ?; discriminate);
    try (intros (? & ? & ? & ?); discriminate);
    try (intros (? & ? & [= <-] & ?); discriminate);
    try discriminate; try (simpl; lia); try reflexivity.
  - rewrite length_take. lia.
  - intros _. eauto.
  - intros H. now destruct (H _ names eq_refl).
Qed.

(** X20: The connection line reads "Connected" exactly when the database
    handle was imported and is not null; the backend line always reads
    "Running"; and the database line never exceeds 75 code points, since
    an error message is cut to its first fifty. *)
Theorem status_lines :
  backend (test_database i env) = check_mark ++ codes " Running" /\
  (connection_status (test_database i env) = codes "Connected" <->
   exists db, i = Db (Some db)) /\
  length (database (test_database i env)) <= 75.
Proof.
  unfold test_database, probe.
  destruct i as [|e|[[n [names|e]]|]]; cbn [name list_collection_names];
    cbn [backend connection_status database set_database set_database_url
         set_database_name set_connection_status set_collections initial].
  all: repeat split; try (intros (? & ?); discriminate); try discriminate;
    try (intros _; eauto; fail);
    rewrite ?length_app, ?length_take;
    try (pose proof (Nat.le_min_l 50 (length e)) as Hm;
         revert Hm; generalize (Nat.min 50 (length e)); intros m Hm);
    simpl; lia.
Qed.

End Status.

Lemma status_lists_ten_collections_witness :
  Health.collections
    (Health.test_database
       (Health.Db (Some (Health.mkHandle None (Health.Names (repeat (Health.codes "c") 12)))))
       (Health.mkEnviron None None))
  = take 10 (repeat (Health.codes "c") 12).
Proof.
  apply (proj1 (proj2 (status_lists_ten_collections
           (Health.Db (Some (Health.mkHandle None (Health.Names (repeat (Health.codes "c") 12)))))
           (Health.mkEnviron None None)))
           (Health.mkHandle None (Health.Names (repeat (Health.codes "c") 12)))
           (repeat (Health.codes "c") 12)); reflexivity.
Defined.

Lemma status_reads_environment_witness :
  Health.database_url
    (Health.test_database (Health.Db None) (Health.mkEnviron (Some []) None))
  = Some (Health.cross_mark ++ Health.codes " Not Set")%list.
Proof.
  apply (proj2 (proj2 (status_reads_environment (Health.Db None)
                         (Health.mkEnviron (Some []) None)))).
  reflexivity.
Defined.
